(** * Buddmeyer Vision: the CIP client (communication/cip_client.py)

    A shallow embedding of [SimulatedPLC] and [CIPClient] and the
    properties of the connection state machine, the tag read/write paths
    and the composite detection write. *)

From Stdlib Require Import ZArith Lia.
From Stdlib Require Import Floats.PrimFloat Floats.FloatOps Floats.SpecFloat.
From Stdlib Require Import Uint63.
From stdpp Require Import base option list strings pretty gmap.

Open Scope string_scope.
Open Scope list_scope.
Open Scope stdpp_scope.

(** ** Python values carried by tags *)

(** The values the client reads and writes ([Any] in the source): the
    register store holds [bool], [int] and [float]; [None] is what the
    failure log records. *)
Inductive PyValue : Type :=
  | PyNone
  | PyBool (b : bool)
  | PyInt (n : Z)
  | PyFloat (f : float)
  | PyStr (s : string).

(** Python truthiness, as used by [if name == "PRODUCT_DETECTED" and value]. *)
Definition truthy (v : PyValue) : bool :=
  match v with
  | PyNone => false
  | PyBool b => b
  | PyInt n => negb (n =? 0)%Z
  | PyFloat f => negb (PrimFloat.eqb f 0%float)
  | PyStr s => negb (String.eqb s "")
  end.

(** ** SimulatedPLC *)

Module SimulatedPLC.

(** The callbacks handed to [threading.Timer]. *)
Inductive TimerAction : Type := AutoAck | ResetAck.

(** [_tags] is the register dict; [_ack_delay] the auto-ACK delay in
    seconds; [timers] the started [threading.Timer]s that have not fired
    yet, each with its delay.  The lock only brackets single dict
    accesses, which are atomic here. *)
Record t : Type := mk {
  _tags : gmap string PyValue;
  _ack_delay : float;
  timers : list (float * TimerAction)
}.

(** The pre-seeded register set of [__init__], in source order. *)
Definition default_tags : list (string * PyValue) :=
  [ ("VisionCtrl_VisionReady", PyBool false);
    ("VisionCtrl_VisionBusy", PyBool false);
    ("VisionCtrl_VisionError", PyBool false);
    ("VisionCtrl_Heartbeat", PyBool false);
    ("PRODUCT_DETECTED", PyBool false);
    ("CENTROID_X", PyFloat 0%float);
    ("CENTROID_Y", PyFloat 0%float);
    ("CONFIDENCE", PyFloat 0%float);
    ("DETECTION_COUNT", PyInt 0);
    ("PROCESSING_TIME", PyFloat 0%float);
    ("VisionCtrl_EchoAck", PyBool false);
    ("VisionCtrl_DataSent", PyBool false);
    ("VisionCtrl_ReadyForNext", PyBool false);
    ("SYSTEM_FAULT", PyBool false);
    ("ROBOT_ACK", PyBool false);
    ("ROBOT_READY", PyBool true);
    ("ROBOT_ERROR", PyBool false);
    ("RobotStatus_Busy", PyBool false);
    ("RobotStatus_PickComplete", PyBool false);
    ("RobotStatus_PlaceComplete", PyBool false);
    ("RobotCtrl_AuthorizeDetection", PyBool true);
    ("RobotCtrl_CycleStart", PyBool false);
    ("RobotCtrl_CycleComplete", PyBool false);
    ("RobotCtrl_EmergencyStop", PyBool false);
    ("RobotCtrl_SystemMode", PyInt 1);
    ("SystemStatus_Heartbeat", PyBool false);
    ("SystemStatus_Mode", PyInt 1);
    ("Safety_GateClosed", PyBool true);
    ("Safety_AreaClear", PyBool true);
    ("Safety_LightCurtainOK", PyBool true);
    ("Safety_EmergencyStop", PyBool true) ].

(** [SimulatedPLC.__init__] *)
Definition init : t :=
  {| _tags := list_to_map default_tags;
     _ack_delay := 1.5%float;
     timers := [] |}.

(** [read_variable]: [self._tags.get(name, 0)]. *)
Definition read_variable (plc : t) (name : string) : PyValue :=
  default (PyInt 0) (_tags plc !! name).

(** [write_variable]: store the value, then start the auto-ACK timer when
    a truthy value goes to ["PRODUCT_DETECTED"]. *)
Definition write_variable (plc : t) (name : string) (value : PyValue) : t :=
  let plc := {| _tags := <[name := value]> (_tags plc);
                _ack_delay := _ack_delay plc;
                timers := timers plc |} in
  if String.eqb name "PRODUCT_DETECTED" && truthy value
  then {| _tags := _tags plc;
          _ack_delay := _ack_delay plc;
          timers := timers plc ++ [(_ack_delay plc, AutoAck)] |}
  else plc.

(** [_auto_ack]: raise ["ROBOT_ACK"] and start the one-second reset timer. *)
Definition _auto_ack (plc : t) : t :=
  {| _tags := <["ROBOT_ACK" := PyBool true]> (_tags plc);
     _ack_delay := _ack_delay plc;
     timers := timers plc ++ [(1.0%float, ResetAck)] |}.

(** [_reset_ack] *)
Definition _reset_ack (plc : t) : t :=
  {| _tags := <["ROBOT_ACK" := PyBool false]> (_tags plc);
     _ack_delay := _ack_delay plc;
     timers := timers plc |}.

(** The [i]-th pending timer expires and runs its callback. *)
Definition fire (i : nat) (plc : t) : t :=
  match timers plc !! i with
  | None => plc
  | Some (_, a) =>
      let plc := {| _tags := _tags plc;
                    _ack_delay := _ack_delay plc;
                    timers := take i (timers plc) ++ drop (S i) (timers plc) |} in
      match a with
      | AutoAck => _auto_ack plc
      | ResetAck => _reset_ack plc
      end
  end.

End SimulatedPLC.

(** ** Connection state (communication/connection_state.py) *)

Inductive ConnectionStatus : Type :=
  | DISCONNECTED
  | CONNECTING
  | CONNECTED
  | SIMULATED
  | DEGRADED.

Definition ConnectionStatus_eqb (a b : ConnectionStatus) : bool :=
  match a, b with
  | DISCONNECTED, DISCONNECTED | CONNECTING, CONNECTING | CONNECTED, CONNECTED
  | SIMULATED, SIMULATED | DEGRADED, DEGRADED => true
  | _, _ => false
  end.

(** The fields the client touches: [status], [ip], [port], [is_simulated],
    [last_connected], [last_error], [error_count]. *)
Record ConnectionState : Type := mkState {
  status : ConnectionStatus;
  ip : string;
  port : Z;
  is_simulated : bool;
  last_connected : option Z;
  last_error : option string;
  error_count : Z
}.

(** Modelled from the spec: the [is_connected] property of
    [ConnectionState], whose module is not part of the sources at hand.  A
    connected session is one whose status is CONNECTED, SIMULATED or
    DEGRADED. *)
Definition is_connected (s : ConnectionState) : bool :=
  match status s with
  | CONNECTED | SIMULATED | DEGRADED => true
  | DISCONNECTED | CONNECTING => false
  end.

(** Modelled from the spec: the field defaults of
    [ConnectionState(status=..., ip=..., port=...)]: not simulated, never
    connected, no error, counter at zero. *)
Definition new_state (st : ConnectionStatus) (ip0 : string) (port0 : Z) : ConnectionState :=
  {| status := st; ip := ip0; port := port0; is_simulated := false;
     last_connected := None; last_error := None; error_count := 0 |}.

Definition set_status (st : ConnectionStatus) (s : ConnectionState) : ConnectionState :=
  {| status := st; ip := ip s; port := port s; is_simulated := is_simulated s;
     last_connected := last_connected s; last_error := last_error s;
     error_count := error_count s |}.

Definition set_address (ip0 : string) (port0 : Z) (s : ConnectionState) : ConnectionState :=
  {| status := status s; ip := ip0; port := port0; is_simulated := is_simulated s;
     last_connected := last_connected s; last_error := last_error s;
     error_count := error_count s |}.

Definition set_is_simulated (b : bool) (s : ConnectionState) : ConnectionState :=
  {| status := status s; ip := ip s; port := port s; is_simulated := b;
     last_connected := last_connected s; last_error := last_error s;
     error_count := error_count s |}.

Definition set_last_connected (t : Z) (s : ConnectionState) : ConnectionState :=
  {| status := status s; ip := ip s; port := port s; is_simulated := is_simulated s;
     last_connected := Some t; last_error := last_error s;
     error_count := error_count s |}.

(** [error_count += 1; last_error = error] *)
Definition count_error (error : string) (s : ConnectionState) : ConnectionState :=
  {| status := status s; ip := ip s; port := port s; is_simulated := is_simulated s;
     last_connected := last_connected s; last_error := Some error;
     error_count := error_count s + 1 |}.

(** What error accounting may do to the connection state: the simulation
    flag stays, the counter does not go down, and the status stays or goes
    from CONNECTED to DEGRADED with the counter above 5. *)
Definition accounting_step (s s' : ConnectionState) : Prop :=
  is_simulated s' = is_simulated s
  /\ (error_count s <= error_count s')%Z
  /\ (status s' = status s
      \/ (status s = CONNECTED /\ status s' = DEGRADED /\ (5 < error_count s')%Z)).

(** ** Configuration snapshot ([get_settings().cip]) *)

Record Settings : Type := mkSettings {
  cip_ip : string;
  cip_port : Z;
  cip_connection_timeout : float;
  cip_simulated : bool;
  cip_heartbeat_interval : float;
  cip_max_retries : Z
}.

(** ** Exceptions and observable events *)

(** [CIPConnectionError] and [CIPTagError] are the client's own; a
    [PyException] is whatever the driver (or a [None] session) raises inside
    a [try] block, known to the client only through [str(e)]. *)
Inductive Exn : Type :=
  | CIPConnectionError (msg : string)
  | CIPTagError (msg : string)
  | PyException (msg : string).

(** [str(e)] *)
Definition str_exn (e : Exn) : string :=
  match e with
  | CIPConnectionError m | CIPTagError m | PyException m => m
  end.

(** The Qt signals of the client. *)
Inductive Signal : Type :=
  | connected
  | disconnected
  | connection_error (error : string)
  | tag_read (logical_name : string) (value : PyValue)
  | tag_written (logical_name : string) (value : PyValue)
  | state_changed (s : ConnectionState).

(** What the client does to its collaborators, in the order it does it:
    driver calls (the session open of [_connect_sync], [close],
    [read_variable], [write_variable]), calls on the simulated device,
    signal emissions, [CIPLogger] records and [MetricsCollector] counters.
    Durations are wall-clock measurements and are left out. *)
Inductive Event : Type :=
  | EvConnectExplicit (ip : string) (connection_timeout : option float)
  | EvClose
  | EvPlcRead (plc_name : string)
  | EvPlcWrite (plc_name : string) (value : PyValue)
  | EvSimRead (plc_name : string)
  | EvSimWrite (plc_name : string) (value : PyValue)
  | EvEmit (s : Signal)
  | EvLogConnect (ip : string) (success : bool) (error : option string)
  | EvLogDisconnect
  | EvLogRead (plc_name : string) (value : PyValue) (success : bool) (error : option string)
  | EvLogWrite (plc_name : string) (value : PyValue) (success : bool) (error : option string)
  | EvMetricRecord (name : string)
  | EvMetricIncrement (name : string).

(** ** Collaborators *)

(** [TagMap] (communication/tag_map.py is not among the sources): the four
    checks and the address translation are taken as given pure functions.
    [get_plc_name] fails on a name it does not know. *)
Record TagMap : Type := mkTagMap {
  is_valid_tag : string -> bool;
  is_readable : string -> bool;
  is_writable : string -> bool;
  validate_value : string -> PyValue -> bool;
  get_plc_name : string -> option string
}.

(** How the import of the driver and [connect_explicit] end. *)
Inductive DialOutcome : Type :=
  | DialOk
  | DialImportError
  | DialFailed (error : string).

(** The aphyt driver and the device behind it.  Each call may succeed or
    raise; its outcome may depend on everything that happened before, so it
    is a function of the event history. *)
Record Driver : Type := mkDriver {
  connect_explicit : list Event -> string -> option float -> DialOutcome;
  close : list Event -> option string;
  plc_read_variable : list Event -> string -> string + PyValue;
  plc_write_variable : list Event -> string -> PyValue -> option string
}.

(** An open [NSeries] session, remembering the address it was opened to. *)
Record NSeries : Type := mkNSeries { session_ip : string }.

(** ** The worker pool ([ThreadPoolExecutor]) *)

Module ThreadPool.

(** What [run_in_executor] hands to the pool: [_connect_sync],
    [self._plc.close], [self._plc.read_variable] or
    [self._plc.write_variable] with their arguments.  A read or write job
    also carries the logical name of the call that awaits it. *)
Inductive Job : Type :=
  | JConnect (ip : string)
  | JClose
  | JRead (logical_name plc_name : string)
  | JWrite (logical_name plc_name : string) (value : PyValue).

(** The pool of [concurrent.futures.ThreadPoolExecutor]: it runs at most
    [max_workers] jobs at once, each on a thread of its own; further jobs
    wait in FIFO order.  [running] is what the device session sees in
    flight. *)
Record t : Type := mk {
  max_workers : nat;
  running : list Job;
  queue : list Job
}.

Definition make (n : nat) : t :=
  {| max_workers := n; running := []; queue := [] |}.

(** [submit]: the job starts at once when a worker is free. *)
Definition submit (j : Job) (p : t) : t :=
  if (length (running p) <? max_workers p)%nat
  then {| max_workers := max_workers p; running := running p ++ [j]; queue := queue p |}
  else {| max_workers := max_workers p; running := running p; queue := queue p ++ [j] |}.

(** The [i]-th running job returns; its worker takes the next queued job. *)
Definition finish (i : nat) (p : t) : t :=
  match running p !! i with
  | None => p
  | Some _ =>
      let rest := take i (running p) ++ drop (S i) (running p) in
      match queue p with
      | [] => {| max_workers := max_workers p; running := rest; queue := [] |}
      | j :: q => {| max_workers := max_workers p; running := rest ++ [j]; queue := q |}
      end
  end.

Definition in_flight (p : t) : nat := length (running p).

End ThreadPool.

(** [self._executor = ThreadPoolExecutor(max_workers=2, ...)] *)
Definition _executor : ThreadPool.t := ThreadPool.make 2.

(** ** CIPClient *)

(** The attributes of the client, and [trace], the history of what it has
    done to its collaborators so far. *)
Record CIPClient : Type := mkClient {
  _settings : Settings;
  _ip : string;
  _port : Z;
  _timeout : float;
  _simulated : bool;
  _plc : option NSeries;
  _simulated_plc : option SimulatedPLC.t;
  _state : ConnectionState;
  _heartbeat_timer : option float;
  _heartbeat_value : bool;
  _reconnect_attempts : Z;
  _max_reconnect_attempts : Z;
  trace : list Event
}.

(** [CIPClient.__init__], given what [get_settings()] returns. *)
Definition __init__ (cfg : Settings) : CIPClient :=
  {| _settings := cfg;
     _ip := cip_ip cfg;
     _port := cip_port cfg;
     _timeout := cip_connection_timeout cfg;
     _simulated := cip_simulated cfg;
     _plc := None;
     _simulated_plc := None;
     _state := new_state DISCONNECTED (cip_ip cfg) (cip_port cfg);
     _heartbeat_timer := None;
     _heartbeat_value := false;
     _reconnect_attempts := 0;
     _max_reconnect_attempts := cip_max_retries cfg;
     trace := [] |}.

Definition with_state (f : ConnectionState -> ConnectionState) (c : CIPClient) : CIPClient :=
  {| _settings := _settings c; _ip := _ip c; _port := _port c;
     _timeout := _timeout c; _simulated := _simulated c; _plc := _plc c;
     _simulated_plc := _simulated_plc c; _state := f (_state c);
     _heartbeat_timer := _heartbeat_timer c;
     _heartbeat_value := _heartbeat_value c;
     _reconnect_attempts := _reconnect_attempts c;
     _max_reconnect_attempts := _max_reconnect_attempts c;
     trace := trace c |}.

Definition set_plc (p : option NSeries) (c : CIPClient) : CIPClient :=
  {| _settings := _settings c; _ip := _ip c; _port := _port c;
     _timeout := _timeout c; _simulated := _simulated c; _plc := p;
     _simulated_plc := _simulated_plc c; _state := _state c;
     _heartbeat_timer := _heartbeat_timer c;
     _heartbeat_value := _heartbeat_value c;
     _reconnect_attempts := _reconnect_attempts c;
     _max_reconnect_attempts := _max_reconnect_attempts c;
     trace := trace c |}.

Definition set_simulated_plc (p : option SimulatedPLC.t) (c : CIPClient) : CIPClient :=
  {| _settings := _settings c; _ip := _ip c; _port := _port c;
     _timeout := _timeout c; _simulated := _simulated c; _plc := _plc c;
     _simulated_plc := p; _state := _state c;
     _heartbeat_timer := _heartbeat_timer c;
     _heartbeat_value := _heartbeat_value c;
     _reconnect_attempts := _reconnect_attempts c;
     _max_reconnect_attempts := _max_reconnect_attempts c;
     trace := trace c |}.

Definition set_heartbeat_timer (t : option float) (c : CIPClient) : CIPClient :=
  {| _settings := _settings c; _ip := _ip c; _port := _port c;
     _timeout := _timeout c; _simulated := _simulated c; _plc := _plc c;
     _simulated_plc := _simulated_plc c; _state := _state c;
     _heartbeat_timer := t;
     _heartbeat_value := _heartbeat_value c;
     _reconnect_attempts := _reconnect_attempts c;
     _max_reconnect_attempts := _max_reconnect_attempts c;
     trace := trace c |}.

Definition set_heartbeat_value (b : bool) (c : CIPClient) : CIPClient :=
  {| _settings := _settings c; _ip := _ip c; _port := _port c;
     _timeout := _timeout c; _simulated := _simulated c; _plc := _plc c;
     _simulated_plc := _simulated_plc c; _state := _state c;
     _heartbeat_timer := _heartbeat_timer c;
     _heartbeat_value := b;
     _reconnect_attempts := _reconnect_attempts c;
     _max_reconnect_attempts := _max_reconnect_attempts c;
     trace := trace c |}.

(** Append one event to the history. *)
Definition record_event (e : Event) (c : CIPClient) : CIPClient :=
  {| _settings := _settings c; _ip := _ip c; _port := _port c;
     _timeout := _timeout c; _simulated := _simulated c; _plc := _plc c;
     _simulated_plc := _simulated_plc c; _state := _state c;
     _heartbeat_timer := _heartbeat_timer c;
     _heartbeat_value := _heartbeat_value c;
     _reconnect_attempts := _reconnect_attempts c;
     _max_reconnect_attempts := _max_reconnect_attempts c;
     trace := trace c ++ [e] |}.

(** ** Methods that may raise: state and exceptions *)

(** A call ends by returning a value or by raising; either way the
    attribute updates made up to that point stay. *)
Inductive Result (A : Type) : Type :=
  | Return (a : A)
  | Raise (e : Exn).
Arguments Return {A} a.
Arguments Raise {A} e.

Definition M (A : Type) : Type := CIPClient -> Result A * CIPClient.

#[global] Instance M_ret : MRet M := fun A a c => (Return a, c).

#[global] Instance M_bind : MBind M := fun A B k m c =>
  match m c with
  | (Return a, c') => k a c'
  | (Raise e, c') => (Raise e, c')
  end.

Definition raise {A : Type} (e : Exn) : M A := fun c => (Raise e, c).

(** [try: body  except Exception as e: handler e] *)
Definition try_except {A : Type} (body : M A) (handler : Exn -> M A) : M A :=
  fun c =>
    match body c with
    | (Return a, c') => (Return a, c')
    | (Raise e, c') => handler e c'
    end.

Definition gets {A : Type} (f : CIPClient -> A) : M A := fun c => (Return (f c), c).

Definition modify (f : CIPClient -> CIPClient) : M unit := fun c => (Return tt, f c).

Definition emit (s : Signal) : M unit := modify (record_event (EvEmit s)).

Definition log (e : Event) : M unit := modify (record_event e).

(** ** Stand-ins for the collaborators, used to run the client *)

(** A tag table with the logical names the client itself uses: the
    detection results and the vision flags are written, the robot
    acknowledgement is read. *)
Definition test_table : list (string * (string * bool * bool)) :=
  [ ("ProductDetected", ("PRODUCT_DETECTED", false, true));
    ("CentroidX", ("CENTROID_X", false, true));
    ("CentroidY", ("CENTROID_Y", false, true));
    ("Confidence", ("CONFIDENCE", false, true));
    ("DetectionCount", ("DETECTION_COUNT", false, true));
    ("ProcessingTime", ("PROCESSING_TIME", false, true));
    ("VisionDataSent", ("VisionCtrl_DataSent", false, true));
    ("VisionReady", ("VisionCtrl_VisionReady", false, true));
    ("VisionHeartbeat", ("VisionCtrl_Heartbeat", false, true));
    ("RobotAck", ("ROBOT_ACK", true, false)) ].

Definition test_entry (n : string) : option (string * bool * bool) :=
  (list_to_map test_table : gmap string (string * bool * bool)) !! n.

Definition test_tag_map : TagMap :=
  {| is_valid_tag := fun n => bool_decide (is_Some (test_entry n));
     is_readable := fun n => from_option (fun e => e.1.2) false (test_entry n);
     is_writable := fun n => from_option (fun e => e.2) false (test_entry n);
     validate_value := fun n _ => bool_decide (is_Some (test_entry n));
     get_plc_name := fun n => (fun e => e.1.1) <$> test_entry n |}.

(** The number of [write_variable] calls the driver has seen. *)
Definition is_plc_write (e : Event) : bool :=
  match e with
  | EvPlcWrite _ _ => true
  | _ => false
  end.

Definition plc_writes (h : list Event) : nat :=
  length (List.filter is_plc_write h).

(** A device that answers every call. *)
Definition driver_ok : Driver :=
  {| connect_explicit := fun _ _ _ => DialOk;
     close := fun _ => None;
     plc_read_variable := fun _ _ => inr (PyBool false);
     plc_write_variable := fun _ _ _ => None |}.

(** No device at the address: the session open times out. *)
Definition driver_unreachable : Driver :=
  {| connect_explicit := fun _ _ _ => DialFailed "timed out";
     close := fun _ => None;
     plc_read_variable := fun _ _ => inl "not connected";
     plc_write_variable := fun _ _ _ => Some "not connected" |}.

(** A device that accepts the session and then fails every read and write. *)
Definition driver_faulty : Driver :=
  {| connect_explicit := fun _ _ _ => DialOk;
     close := fun _ => None;
     plc_read_variable := fun _ _ => inl "read failed";
     plc_write_variable := fun _ _ _ => Some "write failed" |}.

(** A device whose third [write_variable] call fails. *)
Definition driver_third_write_fails : Driver :=
  {| connect_explicit := fun _ _ _ => DialOk;
     close := fun _ => None;
     plc_read_variable := fun _ _ => inr (PyBool false);
     plc_write_variable := fun h _ _ =>
       if (plc_writes h =? 2)%nat then Some "write failed" else None |}.

Definition is_connect_explicit (e : Event) : bool :=
  match e with
  | EvConnectExplicit _ _ => true
  | _ => false
  end.

(** A device that is down at the first session open and up from then on. *)
Definition driver_comes_up : Driver :=
  {| connect_explicit := fun h _ _ =>
       if existsb is_connect_explicit h then DialOk else DialFailed "timed out";
     close := fun _ => None;
     plc_read_variable := fun _ _ => inr (PyBool false);
     plc_write_variable := fun _ _ _ => None |}.

Definition test_now (h : list Event) : Z := Z.of_nat (length h).

Definition test_py_str (v : PyValue) : string :=
  match v with
  | PyNone => "None"
  | PyBool true => "True"
  | PyBool false => "False"
  | PyStr s => s
  | PyInt _ | PyFloat _ => "<number>"
  end.

Definition cfg_real : Settings :=
  {| cip_ip := "10.0.0.5"; cip_port := 44818;
     cip_connection_timeout := 5.0%float; cip_simulated := false;
     cip_heartbeat_interval := 1.0%float; cip_max_retries := 3 |}.


(** The client of scripts/test_cip_config_reload.py: built from the
    configuration, then given an old address in memory. *)
Definition stale_client : CIPClient :=
  let c := __init__ cfg_real in
  {| _settings := _settings c; _ip := "192.168.1.99"; _port := 9999;
     _timeout := _timeout c; _simulated := _simulated c; _plc := _plc c;
     _simulated_plc := _simulated_plc c; _state := _state c;
     _heartbeat_timer := _heartbeat_timer c;
     _heartbeat_value := _heartbeat_value c;
     _reconnect_attempts := _reconnect_attempts c;
     _max_reconnect_attempts := _max_reconnect_attempts c;
     trace := trace c |}.

(** ** Reading the event history *)

(** An [increment("cip_errors")] of the metrics collector. *)
Definition is_error_increment (e : Event) : bool :=
  match e with
  | EvMetricIncrement n => String.eqb n "cip_errors"
  | _ => false
  end.

(** How many errors the metrics collector has been told of. *)
Definition errors_recorded (h : list Event) : Z :=
  Z.of_nat (length (List.filter is_error_increment h)).

(** A tag table that lets every name through in both directions and
    resolves it to itself. *)
Definition loopback_tag_map : TagMap :=
  {| is_valid_tag := fun _ => true;
     is_readable := fun _ => true;
     is_writable := fun _ => true;
     validate_value := fun _ _ => true;
     get_plc_name := fun n => Some n |}.

(** ** Python numbers *)

(** [int(x)] on a float: truncation toward zero; infinities and NaN
    raise. *)
Definition py_int (x : float) : option Z :=
  match Prim2SF x with
  | S754_zero _ => Some 0%Z
  | S754_finite s m e =>
      let mag := if (0 <=? e)%Z then Z.shiftl (Z.pos m) e
                 else Z.shiftr (Z.pos m) (- e) in
      Some (if s then (- mag)%Z else mag)
  | S754_infinity _ | S754_nan => None
  end.

(** [float(n)] for an integer small enough to be exact. *)
Definition py_float (n : Z) : float :=
  if (n <? 0)%Z then PrimFloat.opp (PrimFloat.of_uint63 (Uint63.of_Z (- n)))
  else PrimFloat.of_uint63 (Uint63.of_Z n).

(** [l[i]] on a list: negative indices count from the end, anything
    outside raises [IndexError]. *)
Definition py_index {A : Type} (l : list A) (i : Z) : option A :=
  let n := Z.of_nat (length l) in
  if (0 <=? i)%Z then l !! Z.to_nat i
  else if (- n <=? i)%Z then l !! Z.to_nat (n + i)
  else None.

(** ** The configuration page (ui/pages/configuration_page.py) *)

Module ConfigurationPage.

(** [source_map.get(source_type, 0)] of [_load_settings]. *)
Definition source_map_get (source_type : string) : Z :=
  if String.eqb source_type "video" then 0
  else if String.eqb source_type "usb" then 1
  else if String.eqb source_type "rtsp" then 2
  else if String.eqb source_type "gige" then 3
  else 0.

(** [source_types] of [_save_settings]. *)
Definition source_types : list string := ["video"; "usb"; "rtsp"; "gige"].

(** [source_types[index]] *)
Definition save_source_type (index : Z) : option string :=
  py_index source_types index.

(** [slider.value() / 100], as [_save_settings] stores confidence,
    brightness and contrast. *)
Definition slider_to_setting (value : Z) : float :=
  PrimFloat.div (py_float value) (py_float 100).

(** [int(setting * 100)], as [_load_settings] positions the sliders. *)
Definition setting_to_slider (setting : float) : option Z :=
  py_int (PrimFloat.mul setting (py_float 100)).

(** A slider position saved and loaded again. *)
Definition reload_slider (value : Z) : option Z :=
  setting_to_slider (slider_to_setting value).

(** The positions of a slider with range [-100, 100]. *)
Definition slider_positions : list Z :=
  map (fun n => (Z.of_nat n - 100)%Z) (seq 0 201).

(** Whether a position comes back as itself, or one step nearer to zero at
    the six positions where the float product falls just short. *)
Definition reloads_as_expected (value : Z) : bool :=
  match reload_slider value with
  | Some r =>
      if existsb (Z.eqb value) [29; 57; 58]%Z then (r =? value - 1)%Z
      else if existsb (Z.eqb value) [-29; -57; -58]%Z then (r =? value + 1)%Z
      else (r =? value)%Z
  | None => false
  end.

End ConfigurationPage.

(** ** The installer (installer/install_complete.py) *)

Module Installer.

(** [check_python], given [sys.version_info]. *)
Definition check_python (major minor : Z) : bool :=
  (major >=? 3)%Z && (minor >=? 10)%Z.

(** Version [a.b] is at least version [c.d]. *)
Definition version_at_least (a b c d : Z) : bool :=
  (c <? a)%Z || ((a =? c)%Z && (d <=? b)%Z).

(** How a [subprocess.run] ends: with a return code, or by raising
    [TimeoutExpired] or something else (the interpreter is missing, ...).
    With [check=True] a nonzero return code raises [CalledProcessError]. *)
Inductive RunOutcome : Type :=
  | Exited (returncode : Z)
  | TimeoutExpired
  | OtherError (msg : string).

(** A run that ended with return code 0. *)
Definition succeeded (o : RunOutcome) : bool :=
  match o with
  | Exited 0 => true
  | _ => false
  end.

(** A run that raised [CalledProcessError] (under [check=True]) or
    [TimeoutExpired]. *)
Definition failed_or_timed_out (o : RunOutcome) : bool :=
  match o with
  | Exited 0 => false
  | Exited _ | TimeoutExpired => true
  | OtherError _ => false
  end.

(** The world the installer runs commands in: the outcome of a command
    may depend on the commands run before it. *)
Definition Runner : Type := list (list string) -> list string -> RunOutcome.

(** What a function of the installer does: it returns a value or lets an
    exception through, having run some commands. *)
Inductive Outcome (A : Type) : Type :=
  | Returns (a : A)
  | Propagates (e : RunOutcome).
Arguments Returns {A} a.
Arguments Propagates {A} e.

Definition basic_deps : list string :=
  [ "PySide6>=6.6.0"; "pydantic>=2.6.0"; "pydantic-settings>=2.2.0";
    "pyyaml>=6.0.0"; "opencv-python>=4.9.0"; "Pillow>=10.2.0";
    "numpy>=1.24.0"; "structlog>=24.1.0"; "colorama>=0.4.6";
    "qasync>=0.27.0"; "matplotlib>=3.8.0" ].

Definition ml_deps : list string :=
  [ "transformers>=4.38.0"; "accelerate>=0.27.0"; "safetensors>=0.4.0";
    "timm>=0.9.0"; "aphyt>=0.1.24" ].

Definition basic_command (venv_python : string) : list string :=
  [venv_python; "-m"; "pip"; "install"] ++ basic_deps.

Definition torch_cuda_command (venv_python : string) : list string :=
  [venv_python; "-m"; "pip"; "install"; "torch"; "torchvision";
   "--index-url"; "https://download.pytorch.org/whl/cu118"].

Definition torch_cpu_command (venv_python : string) : list string :=
  [venv_python; "-m"; "pip"; "install"; "torch"; "torchvision"].

Definition ml_command (venv_python : string) : list string :=
  [venv_python; "-m"; "pip"; "install"] ++ ml_deps.

(** [install_dependencies]: the commands it ran, oldest first, and how it
    ended.  The first [try] catches [CalledProcessError] only, the others
    [TimeoutExpired] as well; [requirements_file] is not used. *)
Definition install_dependencies (run : Runner) (venv_python requirements_file : string)
    : list (list string) * Outcome bool :=
  let h1 := [basic_command venv_python] in
  match run [] (basic_command venv_python) with
  | Exited 0 =>
      let after_torch (h : list (list string)) : list (list string) * Outcome bool :=
        let h' := h ++ [ml_command venv_python] in
        match run h (ml_command venv_python) with
        | Exited 0 => (h', Returns true)
        | Exited _ | TimeoutExpired => (h', Returns false)
        | OtherError m => (h', Propagates (OtherError m))
        end in
      let h2 := h1 ++ [torch_cuda_command venv_python] in
      match run h1 (torch_cuda_command venv_python) with
      | Exited 0 => after_torch h2
      | Exited _ | TimeoutExpired =>
          let h3 := h2 ++ [torch_cpu_command venv_python] in
          match run h2 (torch_cpu_command venv_python) with
          | Exited 0 => after_torch h3
          | Exited _ | TimeoutExpired => (h3, Returns false)
          | OtherError m => (h3, Propagates (OtherError m))
          end
      | OtherError m => (h2, Propagates (OtherError m))
      end
  | Exited _ => (h1, Returns false)
  | TimeoutExpired => (h1, Propagates TimeoutExpired)
  | OtherError m => (h1, Propagates (OtherError m))
  end.

(** The packages [verify_installation] looks for. *)
Definition packages : list string :=
  ["PySide6"; "torch"; "transformers"; "opencv-python"; "aphyt"].

Definition show_command (venv_python package : string) : list string :=
  [venv_python; "-m"; "pip"; "show"; package].

(** The package loop of [verify_installation]: every package is looked up,
    and [all_ok] falls on a nonzero return code or on any exception. *)
Fixpoint verify_packages (run : Runner) (venv_python : string)
    (pkgs : list string) (h : list (list string)) (all_ok : bool)
    : list (list string) * bool :=
  match pkgs with
  | [] => (h, all_ok)
  | package :: rest =>
      let cmd := show_command venv_python package in
      let ok := match run h cmd with
                | Exited 0 => all_ok
                | _ => false
                end in
      verify_packages run venv_python rest (h ++ [cmd]) ok
  end.

(** [verify_installation]: the presence of models and videos only changes
    what is printed. *)
Definition verify_installation (run : Runner) (venv_python : string)
    (models_found videos_found : bool) : list (list string) * bool :=
  verify_packages run venv_python packages [] true.

End Installer.

Section Client.

(** The collaborators: the tag table, the driver with the device behind
    it, [datetime.now()] and the formatting of a value inside an f-string. *)
Variable tag_map : TagMap.
Variable driver : Driver.
Variable now : list Event -> Z.
Variable py_str : PyValue -> string.

(** [_update_state] *)
Definition _update_state (st : ConnectionStatus) (c : CIPClient) : CIPClient :=
  let c := with_state (set_status st) c in
  record_event (EvEmit (state_changed (_state c))) c.

(** [_reload_connection_config], given what [get_settings()] returns now. *)
Definition _reload_connection_config (cfg : Settings) (c : CIPClient) : CIPClient :=
  {| _settings := cfg;
     _ip := cip_ip cfg;
     _port := cip_port cfg;
     _timeout := cip_connection_timeout cfg;
     _simulated := cip_simulated cfg;
     _plc := _plc c;
     _simulated_plc := _simulated_plc c;
     _state := set_address (cip_ip cfg) (cip_port cfg) (_state c);
     _heartbeat_timer := _heartbeat_timer c;
     _heartbeat_value := _heartbeat_value c;
     _reconnect_attempts := _reconnect_attempts c;
     _max_reconnect_attempts := _max_reconnect_attempts c;
     trace := trace c |}.

(** [_start_heartbeat]: nothing when a timer exists, else a timer with the
    configured interval. *)
Definition _start_heartbeat (c : CIPClient) : CIPClient :=
  match _heartbeat_timer c with
  | Some _ => c
  | None => set_heartbeat_timer (Some (cip_heartbeat_interval (_settings c))) c
  end.

(** [_stop_heartbeat] *)
Definition _stop_heartbeat (c : CIPClient) : CIPClient :=
  match _heartbeat_timer c with
  | Some _ => set_heartbeat_timer None c
  | None => c
  end.

(** [if timeout and timeout > 0]: the [connection_timeout] argument
    [_connect_sync] gives to [connect_explicit], if any. *)
Definition timeout_arg (timeout : float) : option float :=
  if truthy (PyFloat timeout) && PrimFloat.ltb 0%float timeout
  then Some timeout else None.

(** [_connect_sync]: open the session, with the timeout only when it is
    truthy and positive; every failure becomes a [CIPConnectionError]. *)
Definition _connect_sync (ip0 : string) (timeout : float) : M NSeries :=
  fun c =>
    let arg := timeout_arg timeout in
    let c' := record_event (EvConnectExplicit ip0 arg) c in
    match connect_explicit driver (trace c) ip0 arg with
    | DialOk => (Return {| session_ip := ip0 |}, c')
    | DialImportError =>
        (Raise (CIPConnectionError
                  "Biblioteca aphyt não instalada. Execute: pip install aphyt"), c)
    | DialFailed e =>
        (Raise (CIPConnectionError ("Falha ao conectar ao CLP: " +:+ e)), c')
    end.

(** [_connect_simulated] *)
Definition _connect_simulated : M bool :=
  modify (set_simulated_plc (Some SimulatedPLC.init));;
  modify (with_state (set_is_simulated true));;
  modify (_update_state SIMULATED);;
  modify _start_heartbeat;;
  emit connected;;
  mret true.

(** [connect], given what [get_settings()] returns during the call.  The
    [try] block yields [Some b] when it returns [b] and [None] when control
    falls through to the simulated fallback. *)
Definition connect (cfg : Settings) : M bool :=
  st ← gets _state;
  if is_connected st then mret true else
  modify (_reload_connection_config cfg);;
  modify (_update_state CONNECTING);;
  simulated ← gets _simulated;
  r ← (if negb simulated then
         try_except
           (ip0 ← gets _ip;
            timeout ← gets _timeout;
            plc ← _connect_sync ip0 timeout;
            modify (set_plc (Some plc));;
            t ← gets (fun c => now (trace c));
            modify (with_state (set_last_connected t));;
            modify (_update_state CONNECTED);;
            ip1 ← gets _ip;
            log (EvLogConnect ip1 true None);;
            modify _start_heartbeat;;
            emit connected;;
            mret (Some true))
           (fun e =>
              ip1 ← gets _ip;
              log (EvLogConnect ip1 false (Some (str_exn e)));;
              mret None)
       else mret None);
  match r with
  | Some b => mret b
  | None => _connect_simulated
  end.

(** [self._plc.close] run on the executor. *)
Definition plc_close : M unit :=
  fun c =>
    let c' := record_event EvClose c in
    match close driver (trace c) with
    | None => (Return tt, c')
    | Some e => (Raise (PyException e), c')
    end.

(** [disconnect]: a failing [close] is only logged; [finally] drops the
    session. *)
Definition disconnect : M unit :=
  modify _stop_heartbeat;;
  plc ← gets _plc;
  (match plc with
   | Some _ =>
       try_except plc_close (fun _ => mret tt);;
       modify (set_plc None)
   | None => mret tt
   end);;
  modify (set_simulated_plc None);;
  modify (_update_state DISCONNECTED);;
  log EvLogDisconnect;;
  emit disconnected.

(** [_handle_error] *)
Definition _handle_error (error : string) (tag_name : option string) (c : CIPClient) : CIPClient :=
  let c := with_state (count_error error) c in
  let c := record_event (EvMetricIncrement "cip_errors") c in
  let c := if (error_count (_state c) >? 5)%Z
              && ConnectionStatus_eqb (status (_state c)) CONNECTED
           then _update_state DEGRADED c else c in
  record_event (EvEmit (connection_error error)) c.

(** The backend read of [read_tag]: the simulated device when there is
    one, else [self._plc.read_variable] on the executor. *)
Definition backend_read (plc_name : string) : M PyValue :=
  fun c =>
    match _simulated_plc c with
    | Some sim =>
        (Return (SimulatedPLC.read_variable sim plc_name),
         record_event (EvSimRead plc_name) c)
    | None =>
        match _plc c with
        | Some _ =>
            let c' := record_event (EvPlcRead plc_name) c in
            match plc_read_variable driver (trace c) plc_name with
            | inr value => (Return value, c')
            | inl e => (Raise (PyException e), c')
            end
        | None =>
            (Raise (PyException "'NoneType' object has no attribute 'read_variable'"), c)
        end
    end.

(** The backend write of [write_tag]. *)
Definition backend_write (plc_name : string) (value : PyValue) : M unit :=
  fun c =>
    match _simulated_plc c with
    | Some sim =>
        (Return tt,
         record_event (EvSimWrite plc_name value)
           (set_simulated_plc (Some (SimulatedPLC.write_variable sim plc_name value)) c))
    | None =>
        match _plc c with
        | Some _ =>
            let c' := record_event (EvPlcWrite plc_name value) c in
            match plc_write_variable driver (trace c) plc_name value with
            | None => (Return tt, c')
            | Some e => (Raise (PyException e), c')
            end
        | None =>
            (Raise (PyException "'NoneType' object has no attribute 'write_variable'"), c)
        end
    end.

(** Modelled from the spec: [self._tag_map.get_plc_name] fails with an
    unknown-tag error when the name is absent from the table (its module is
    not among the sources, so the message is only a stand-in). *)
Definition lookup_plc_name (logical_name : string) : M string :=
  match get_plc_name tag_map logical_name with
  | Some n => mret n
  | None => raise (CIPTagError ("TAG desconhecido: " +:+ logical_name))
  end.

(** [read_tag] *)
Definition read_tag (logical_name : string) : M PyValue :=
  st ← gets _state;
  if negb (is_connected st) then raise (CIPConnectionError "Não conectado ao CLP") else
  if negb (is_valid_tag tag_map logical_name)
  then raise (CIPTagError ("TAG não permitido: " +:+ logical_name)) else
  if negb (is_readable tag_map logical_name)
  then raise (CIPTagError ("TAG não pode ser lido: " +:+ logical_name)) else
  plc_name ← lookup_plc_name logical_name;
  try_except
    (value ← backend_read plc_name;
     log (EvLogRead plc_name value true None);;
     log (EvMetricRecord "cip_response_time");;
     emit (tag_read logical_name value);;
     mret value)
    (fun e =>
       log (EvLogRead plc_name PyNone false (Some (str_exn e)));;
       modify (_handle_error (str_exn e) (Some plc_name));;
       raise (CIPTagError ("Erro ao ler TAG " +:+ logical_name +:+ ": " +:+ str_exn e))).

(** [write_tag] *)
Definition write_tag (logical_name : string) (value : PyValue) : M bool :=
  st ← gets _state;
  if negb (is_connected st) then raise (CIPConnectionError "Não conectado ao CLP") else
  if negb (is_valid_tag tag_map logical_name)
  then raise (CIPTagError ("TAG não permitido: " +:+ logical_name)) else
  if negb (is_writable tag_map logical_name)
  then raise (CIPTagError ("TAG não pode ser escrito: " +:+ logical_name)) else
  if negb (validate_value tag_map logical_name value)
  then raise (CIPTagError ("Valor inválido para TAG " +:+ logical_name +:+ ": " +:+ py_str value)) else
  plc_name ← lookup_plc_name logical_name;
  try_except
    (backend_write plc_name value;;
     log (EvLogWrite plc_name value true None);;
     log (EvMetricRecord "cip_response_time");;
     emit (tag_written logical_name value);;
     mret true)
    (fun e =>
       log (EvLogWrite plc_name value false (Some (str_exn e)));;
       modify (_handle_error (str_exn e) (Some plc_name));;
       raise (CIPTagError ("Erro ao escrever TAG " +:+ logical_name +:+ ": " +:+ str_exn e))).

(** [write_detection_result].  Python does not enforce the annotations of
    the six parameters, so each is any value. *)
Definition write_detection_result
    (detected centroid_x centroid_y confidence detection_count processing_time : PyValue)
    : M bool :=
  try_except
    (write_tag "ProductDetected" detected;;
     write_tag "CentroidX" centroid_x;;
     write_tag "CentroidY" centroid_y;;
     write_tag "Confidence" confidence;;
     write_tag "DetectionCount" detection_count;;
     write_tag "ProcessingTime" processing_time;;
     write_tag "VisionDataSent" (PyBool true);;
     mret true)
    (fun _ => mret false).

(** [_send_heartbeat]: toggle the bit and start the write as a task of its
    own, whose outcome nobody awaits. *)
Definition _send_heartbeat (c : CIPClient) : CIPClient :=
  let c := set_heartbeat_value (negb (_heartbeat_value c)) c in
  snd (write_tag "VisionHeartbeat" (PyBool (_heartbeat_value c)) c).

(** A timer of the simulated device fires. *)
Definition sim_timer (i : nat) (c : CIPClient) : CIPClient :=
  match _simulated_plc c with
  | Some sim => set_simulated_plc (Some (SimulatedPLC.fire i sim)) c
  | None => c
  end.

(** ** Executions *)

(** The operations an execution is made of. *)
Inductive Op : Type :=
  | OpConnect (cfg : Settings)
  | OpDisconnect
  | OpReadTag (logical_name : string)
  | OpWriteTag (logical_name : string) (value : PyValue)
  | OpWriteDetectionResult (detected centroid_x centroid_y confidence
                            detection_count processing_time : PyValue)
  | OpHandleError (error : string) (tag_name : option string)
  | OpHeartbeat
  | OpSimTimer (i : nat).

Definition exec (c : CIPClient) (op : Op) : CIPClient :=
  match op with
  | OpConnect cfg => snd (connect cfg c)
  | OpDisconnect => snd (disconnect c)
  | OpReadTag n => snd (read_tag n c)
  | OpWriteTag n v => snd (write_tag n v c)
  | OpWriteDetectionResult d x y cf k t => snd (write_detection_result d x y cf k t c)
  | OpHandleError e t => _handle_error e t c
  | OpHeartbeat => _send_heartbeat c
  | OpSimTimer i => sim_timer i c
  end.

Definition exec_all (ops : list Op) (c : CIPClient) : CIPClient := foldl exec c ops.

(** The states an execution can reach from a freshly built client. *)
Definition reachable (c : CIPClient) : Prop :=
  exists cfg ops, c = exec_all ops (__init__ cfg).

(** ** The composite write, in the words of the specification *)

(** The seven sub-writes of the detection result, in their order. *)
Definition detection_writes
    (detected centroid_x centroid_y confidence detection_count processing_time : PyValue)
    : list (string * PyValue) :=
  [ ("ProductDetected", detected);
    ("CentroidX", centroid_x);
    ("CentroidY", centroid_y);
    ("Confidence", confidence);
    ("DetectionCount", detection_count);
    ("ProcessingTime", processing_time);
    ("VisionDataSent", PyBool true) ].

(** The client after attempting the writes [ws] one after the other. *)
Definition after_writes (ws : list (string * PyValue)) (c : CIPClient) : CIPClient :=
  foldl (fun c w => snd (write_tag w.1 w.2 c)) c ws.

(** Whether one write returns (rather than raises) from [c]. *)
Definition write_returns (w : string * PyValue) (c : CIPClient) : bool :=
  match fst (write_tag w.1 w.2 c) with
  | Return _ => true
  | Raise _ => false
  end.

(** The position of the first write of [ws] that raises when they are
    attempted in order from [c], if there is one. *)
Fixpoint first_failure (ws : list (string * PyValue)) (c : CIPClient) : option nat :=
  match ws with
  | [] => None
  | w :: ws' =>
      if write_returns w c
      then S <$> first_failure ws' (snd (write_tag w.1 w.2 c))
      else Some 0%nat
  end.
(** Six failed reads in a row on a connected client. *)
Definition six_failed_reads : list Op :=
  [ OpConnect cfg_real;
    OpReadTag "RobotAck"; OpReadTag "RobotAck"; OpReadTag "RobotAck";
    OpReadTag "RobotAck"; OpReadTag "RobotAck"; OpReadTag "RobotAck" ].


(** ** The convenience methods *)

(** [read_robot_ack] *)
Definition read_robot_ack : M PyValue := read_tag "RobotAck".

(** [set_vision_ready] *)
Definition set_vision_ready (ready : PyValue) : M bool := write_tag "VisionReady" ready.

(** [set_vision_echo_ack] *)
Definition set_vision_echo_ack (ack : PyValue) : M bool := write_tag "VisionEchoAck" ack.

(** [set_ready_for_next] *)
Definition set_ready_for_next (ready : PyValue) : M bool :=
  write_tag "VisionReadyForNext" ready.

(** ** Relations between the attributes of a client *)

(** The status, the two backend handles and the heartbeat timer tell the
    same story. *)
Definition handles_agree (c : CIPClient) : Prop :=
  match status (_state c) with
  | DISCONNECTED =>
      _plc c = None /\ _simulated_plc c = None /\ _heartbeat_timer c = None
  | CONNECTING => False
  | CONNECTED | DEGRADED =>
      is_Some (_plc c) /\ _simulated_plc c = None /\ is_Some (_heartbeat_timer c)
  | SIMULATED =>
      _plc c = None /\ is_Some (_simulated_plc c) /\ is_Some (_heartbeat_timer c)
  end.


(** ** The two ways [connect] ends, in closed form *)

(** What [_connect_simulated] does to the client. *)
Definition enter_simulated (c : CIPClient) : CIPClient :=
  record_event (EvEmit connected)
    (_start_heartbeat
       (_update_state SIMULATED
          (with_state (set_is_simulated true)
             (set_simulated_plc (Some SimulatedPLC.init) c)))).

(** What the [try] block of [connect] does once the session is open. *)
Definition enter_connected (c : CIPClient) : CIPClient :=
  record_event (EvEmit connected)
    (_start_heartbeat
       (record_event (EvLogConnect (_ip c) true None)
          (_update_state CONNECTED
             (with_state (set_last_connected (now (trace c)))
                (set_plc (Some {| session_ip := _ip c |}) c))))).

(** The client a [connect] that is not a no-op leaves behind, by
    configuration and outcome of the session open. *)
Definition connect_outcome (cfg : Settings) (c : CIPClient) : CIPClient :=
  let c1 := _update_state CONNECTING (_reload_connection_config cfg c) in
  let dial := EvConnectExplicit (cip_ip cfg) (timeout_arg (cip_connection_timeout cfg)) in
  if cip_simulated cfg then enter_simulated c1 else
  match connect_explicit driver (trace c1) (cip_ip cfg)
          (timeout_arg (cip_connection_timeout cfg)) with
  | DialOk => enter_connected (record_event dial c1)
  | DialImportError =>
      enter_simulated
        (record_event
           (EvLogConnect (cip_ip cfg) false
              (Some "Biblioteca aphyt não instalada. Execute: pip install aphyt"))
           c1)
  | DialFailed e =>
      enter_simulated
        (record_event
           (EvLogConnect (cip_ip cfg) false (Some ("Falha ao conectar ao CLP: " +:+ e)))
           (record_event dial c1))
  end.

(** What a read, a write or an error report leaves alone: the settings
    and parameters, the real session, the presence of a simulated device,
    the heartbeat timer and bit, and the address, flag and connection time
    of the state. *)
Definition keeps_session (c c' : CIPClient) : Prop :=
  _settings c' = _settings c
  /\ _ip c' = _ip c
  /\ _port c' = _port c
  /\ _timeout c' = _timeout c
  /\ _simulated c' = _simulated c
  /\ _plc c' = _plc c
  /\ (is_Some (_simulated_plc c') <-> is_Some (_simulated_plc c))
  /\ _heartbeat_timer c' = _heartbeat_timer c
  /\ _heartbeat_value c' = _heartbeat_value c
  /\ ip (_state c') = ip (_state c)
  /\ port (_state c') = port (_state c)
  /\ last_connected (_state c') = last_connected (_state c).

(** The error counter of the state is the number of errors reported to the
    metrics collector. *)
Definition errors_accounted (c : CIPClient) : Prop :=
  error_count (_state c) = errors_recorded (trace c).

(** A run of error reports. *)
Definition report_errors (errs : list (string * option string)) (c : CIPClient)
    : CIPClient :=
  foldl (fun c e => _handle_error e.1 e.2 c) c errs.

(** A logical name the tag table lets through for reading, resp. writing a
    given value, with the physical name it resolves to. *)
Definition accepted_read (n p : string) : Prop :=
  is_valid_tag tag_map n = true
  /\ is_readable tag_map n = true
  /\ get_plc_name tag_map n = Some p.

Definition accepted_write (n : string) (v : PyValue) (p : string) : Prop :=
  is_valid_tag tag_map n = true
  /\ is_writable tag_map n = true
  /\ validate_value tag_map n v = true
  /\ get_plc_name tag_map n = Some p.

(** A connected client that talks to a real session, resp. to the
    simulated device. *)
Definition on_real_session (c : CIPClient) : Prop :=
  is_connected (_state c) = true
  /\ _simulated_plc c = None
  /\ is_Some (_plc c).

Definition on_simulated_device (c : CIPClient) (sim : SimulatedPLC.t) : Prop :=
  is_connected (_state c) = true /\ _simulated_plc c = Some sim.

(** The operations that only read or write tags. *)
Definition is_tag_io (op : Op) : bool :=
  match op with
  | OpReadTag _ | OpWriteTag _ _ | OpWriteDetectionResult _ _ _ _ _ _
  | OpHeartbeat => true
  | _ => false
  end.

(** ** scripts/test_cip_config_reload.py *)

(** [client._ip = ...; client._port = ...]: the test overwrites the address
    held in memory. *)
Definition set_memory_address (ip0 : string) (port0 : Z) (c : CIPClient) : CIPClient :=
  {| _settings := _settings c; _ip := ip0; _port := port0;
     _timeout := _timeout c; _simulated := _simulated c; _plc := _plc c;
     _simulated_plc := _simulated_plc c; _state := _state c;
     _heartbeat_timer := _heartbeat_timer c;
     _heartbeat_value := _heartbeat_value c;
     _reconnect_attempts := _reconnect_attempts c;
     _max_reconnect_attempts := _max_reconnect_attempts c;
     trace := trace c |}.

(** [test_reload_on_connect], run in a fresh process whose configuration
    is [cfg] throughout: it returns [True], or the first failing [assert]
    raises an [AssertionError] with its message. *)
Definition test_reload_on_connect (cfg : Settings) : Result bool :=
  let client := __init__ cfg in
  let client := (disconnect client).2 in
  let client := set_memory_address "192.168.1.99" 9999 client in
  let client := (connect cfg client).2 in
  if negb (String.eqb (_ip client) (cip_ip cfg)) then
    Raise (PyException ("Esperado _ip=" +:+ cip_ip cfg +:+ ", obteve " +:+ _ip client))
  else if negb (_port client =? cip_port cfg)%Z then
    Raise (PyException ("Esperado _port=" +:+ pretty (cip_port cfg)
                        +:+ ", obteve " +:+ pretty (_port client)))
  else if negb (String.eqb (ip (_state client)) (cip_ip cfg)) then
    Raise (PyException "")
  else if negb (port (_state client) =? cip_port cfg)%Z then
    Raise (PyException "")
  else
    let client := (disconnect client).2 in
    Return true.

(** ** Calls issued concurrently *)

(** A tag call as a task of the event loop. *)
Inductive Call : Type :=
  | CallRead (logical_name : string)
  | CallWrite (logical_name : string) (value : PyValue).

(** What the call does to the client when it runs from start to end with
    nothing in between. *)
Definition call_effect (call : Call) (c : CIPClient) : CIPClient :=
  match call with
  | CallRead n => (read_tag n c).2
  | CallWrite n v => (write_tag n v c).2
  end.

(** [self._plc.read_variable(plc_name)] as the worker thread runs it. *)
Definition driver_read (plc_name : string) : M PyValue :=
  fun c =>
    let c' := record_event (EvPlcRead plc_name) c in
    match plc_read_variable driver (trace c) plc_name with
    | inr value => (Return value, c')
    | inl e => (Raise (PyException e), c')
    end.

(** [self._plc.write_variable(plc_name, value)] as the worker thread runs
    it. *)
Definition driver_write (plc_name : string) (value : PyValue) : M unit :=
  fun c =>
    let c' := record_event (EvPlcWrite plc_name value) c in
    match plc_write_variable driver (trace c) plc_name value with
    | None => (Return tt, c')
    | Some e => (Raise (PyException e), c')
    end.

(** The part of [read_tag] that runs once the awaited job has returned or
    raised: the rest of the [try] block, or the [except] block. *)
Definition read_tag_resume (logical_name plc_name : string) : M PyValue :=
  try_except
    (value ← driver_read plc_name;
     log (EvLogRead plc_name value true None);;
     log (EvMetricRecord "cip_response_time");;
     emit (tag_read logical_name value);;
     mret value)
    (fun e =>
       log (EvLogRead plc_name PyNone false (Some (str_exn e)));;
       modify (_handle_error (str_exn e) (Some plc_name));;
       raise (CIPTagError ("Erro ao ler TAG " +:+ logical_name +:+ ": " +:+ str_exn e))).

(** The same for [write_tag]. *)
Definition write_tag_resume (logical_name plc_name : string) (value : PyValue) : M bool :=
  try_except
    (driver_write plc_name value;;
     log (EvLogWrite plc_name value true None);;
     log (EvMetricRecord "cip_response_time");;
     emit (tag_written logical_name value);;
     mret true)
    (fun e =>
       log (EvLogWrite plc_name value false (Some (str_exn e)));;
       modify (_handle_error (str_exn e) (Some plc_name));;
       raise (CIPTagError ("Erro ao escrever TAG " +:+ logical_name +:+ ": " +:+ str_exn e))).

(** The job a call hands to [loop.run_in_executor(self._executor, ...)], if
    it gets that far: the client is connected, the tag passes the checks,
    there is no simulated device and there is a session.  No lock is taken
    on the way. *)
Definition call_job (call : Call) (c : CIPClient) : option ThreadPool.Job :=
  if negb (is_connected (_state c)) then None else
  match call with
  | CallRead n =>
      if negb (is_valid_tag tag_map n) then None else
      if negb (is_readable tag_map n) then None else
      match get_plc_name tag_map n, _simulated_plc c, _plc c with
      | Some p, None, Some _ => Some (ThreadPool.JRead n p)
      | _, _, _ => None
      end
  | CallWrite n v =>
      if negb (is_valid_tag tag_map n) then None else
      if negb (is_writable tag_map n) then None else
      if negb (validate_value tag_map n v) then None else
      match get_plc_name tag_map n, _simulated_plc c, _plc c with
      | Some p, None, Some _ => Some (ThreadPool.JWrite n p v)
      | _, _, _ => None
      end
  end.

(** The client together with its worker pool. *)
Record World : Type := mkWorld {
  client : CIPClient;
  executor : ThreadPool.t
}.

(** A task starts a call: it runs up to its [await], handing its job to the
    pool, or to its end when it never awaits. *)
Definition start_call (call : Call) (w : World) : World :=
  match call_job call (client w) with
  | Some j => {| client := client w; executor := ThreadPool.submit j (executor w) |}
  | None => {| client := call_effect call (client w); executor := executor w |}
  end.

(** What the task that awaited job [j] does once the job has run: the rest
    of [read_tag] or [write_tag].  The jobs of [connect] and [disconnect]
    are not followed here. *)
Definition resume_job (j : ThreadPool.Job) (c : CIPClient) : CIPClient :=
  match j with
  | ThreadPool.JRead n p => (read_tag_resume n p c).2
  | ThreadPool.JWrite n p v => (write_tag_resume n p v c).2
  | ThreadPool.JConnect _ | ThreadPool.JClose => c
  end.

(** The [i]-th running job ends: its worker is free for the next queued job
    and the task that awaited it runs to its end. *)
Definition complete_job (i : nat) (w : World) : World :=
  match ThreadPool.running (executor w) !! i with
  | None => w
  | Some j =>
      {| client := resume_job j (client w);
         executor := ThreadPool.finish i (executor w) |}
  end.

Inductive WorldStep : Type :=
  | StartCall (call : Call)
  | CompleteJob (i : nat).

Definition world_step (w : World) (s : WorldStep) : World :=
  match s with
  | StartCall call => start_call call w
  | CompleteJob i => complete_job i w
  end.

Definition run_world (steps : list WorldStep) (w : World) : World :=
  foldl world_step w steps.

(** The world of a client whose pool is idle. *)
Definition idle_world (c : CIPClient) : World :=
  {| client := c; executor := _executor |}.

(** A call the tag table lets through, with the job it hands to the pool
    on a real session. *)
Definition accepted_call (call : Call) (j : ThreadPool.Job) : Prop :=
  match call with
  | CallRead n => exists p, accepted_read n p /\ j = ThreadPool.JRead n p
  | CallWrite n v => exists p, accepted_write n v p /\ j = ThreadPool.JWrite n p v
  end.

(** ** Proof steps shared by the method lemmas *)

Ltac run_monad :=
  unfold mbind, mret, M_bind, M_ret, modify, gets, raise, try_except, emit, log in *;
  simpl in *.

(** Membership of an event in an explicit list of events. *)
Ltac event_mem :=
  intros;
  repeat match goal with
  | H : _ ∈ _ ++ _ |- _ => apply elem_of_app in H; destruct H
  | H : _ ∈ _ :: _ |- _ => apply elem_of_cons in H; destruct H
  | H : _ ∈ [] |- _ => apply elem_of_nil in H; destruct H
  end;
  simplify_eq;
  rewrite ?elem_of_app, ?elem_of_cons; auto 12.

(** Split a conjunction about the events a call appended and close the
    parts that hold by computation or by membership in the event list. *)
Ltac split_events :=
  rewrite <- ?app_assoc;
  repeat match goal with |- _ /\ _ => split end;
  try reflexivity; try assumption; try discriminate; try congruence;
  try event_mem.

(** ** connect *)

Lemma connect_simulated_result c :
  exists c', _connect_simulated c = (Return true, c')
             /\ status (_state c') = SIMULATED
             /\ is_simulated (_state c') = true
             /\ error_count (_state c') = error_count (_state c).
Proof.
  unfold _connect_simulated. run_monad. eexists. split; [reflexivity|].
  unfold _start_heartbeat; simpl.
  destruct (_heartbeat_timer c); simpl; auto.
Qed.

(** What a [connect] that is not a no-op does. *)
Lemma connect_when_not_connected cfg c :
  is_connected (_state c) = false ->
  exists c',
    connect cfg c = (Return true, c')
    /\ error_count (_state c') = error_count (_state c)
    /\ match cip_simulated cfg,
             connect_explicit driver
               (trace (_update_state CONNECTING (_reload_connection_config cfg c)))
               (cip_ip cfg) (timeout_arg (cip_connection_timeout cfg)) with
       | false, DialOk =>
           status (_state c') = CONNECTED
           /\ is_simulated (_state c') = is_simulated (_state c)
       | _, _ => status (_state c') = SIMULATED /\ is_simulated (_state c') = true
       end.
Proof.
  intros Hn. unfold connect. run_monad. rewrite Hn.
  destruct (cip_simulated cfg) eqn:Hsim; simpl.
  - edestruct connect_simulated_result as (c' & -> & Hs & Hf & He).
    exists c'. auto.
  - unfold _connect_sync. simpl.
    destruct (connect_explicit driver _ _ _) eqn:Hdial; simpl.
    + eexists. split; [reflexivity|].
      unfold _start_heartbeat; simpl.
      destruct (_heartbeat_timer c); simpl; auto.
    + edestruct connect_simulated_result as (c' & -> & Hs & Hf & He).
      exists c'. auto.
    + edestruct connect_simulated_result as (c' & -> & Hs & Hf & He).
      exists c'. auto.
Qed.

Lemma connect_when_connected cfg c :
  is_connected (_state c) = true -> connect cfg c = (Return true, c).
Proof. intros H. unfold connect. run_monad. rewrite H. reflexivity. Qed.

(** C6: a [connect] that is not a no-op takes address, port, timeout and
    simulation flag from the configuration read during the call; every
    session open it makes goes to that address with that timeout, whatever
    the client held before, and one is made unless simulation is forced or
    the driver cannot be imported. *)
Theorem C6_connect_dials_current_config (cfg : Settings) (c : CIPClient) :
  is_connected (_state c) = false ->
  exists r c' evs,
    connect cfg c = (r, c')
    /\ trace c' = trace c ++ evs
    /\ _settings c' = cfg
    /\ _ip c' = cip_ip cfg
    /\ _port c' = cip_port cfg
    /\ _timeout c' = cip_connection_timeout cfg
    /\ _simulated c' = cip_simulated cfg
    /\ ip (_state c') = cip_ip cfg
    /\ port (_state c') = cip_port cfg
    /\ (forall i t, EvConnectExplicit i t ∈ evs ->
          i = cip_ip cfg /\ t = timeout_arg (cip_connection_timeout cfg)
          /\ cip_simulated cfg = false)
    /\ (cip_simulated cfg = false ->
        connect_explicit driver
          (trace (_update_state CONNECTING (_reload_connection_config cfg c)))
          (cip_ip cfg) (timeout_arg (cip_connection_timeout cfg)) <> DialImportError ->
        EvConnectExplicit (cip_ip cfg) (timeout_arg (cip_connection_timeout cfg)) ∈ evs)
    /\ (status (_state c') = CONNECTED ->
        _plc c' = Some {| session_ip := cip_ip cfg |}).
Proof.
  intros Hn. unfold connect. run_monad. rewrite Hn.
  destruct (cip_simulated cfg) eqn:Hsim; simpl.
  - unfold _connect_simulated, _start_heartbeat. run_monad.
    do 3 eexists. split; [reflexivity|].
    destruct (_heartbeat_timer c); simpl; split_events.
  - unfold _connect_sync. simpl.
    destruct (connect_explicit driver _ _ _) eqn:Hdial; simpl.
    + do 3 eexists. split; [reflexivity|]. unfold _start_heartbeat; simpl.
      destruct (_heartbeat_timer c); simpl; split_events.
    + unfold _connect_simulated, _start_heartbeat. run_monad.
      do 3 eexists. split; [reflexivity|].
      destruct (_heartbeat_timer c); simpl; split_events.
    + unfold _connect_simulated, _start_heartbeat. run_monad.
      do 3 eexists. split; [reflexivity|].
      destruct (_heartbeat_timer c); simpl; split_events.
Qed.

(** ** Error accounting *)

Lemma accounting_step_refl s : accounting_step s s.
Proof. unfold accounting_step. split; [reflexivity|]. split; [lia|auto]. Qed.

Lemma accounting_step_trans s1 s2 s3 :
  accounting_step s1 s2 -> accounting_step s2 s3 -> accounting_step s1 s3.
Proof.
  intros (Hf1 & Hc1 & Hs1) (Hf2 & Hc2 & Hs2). unfold accounting_step.
  split; [congruence|]. split; [lia|].
  destruct Hs1 as [E1|(E1 & D1 & L1)], Hs2 as [E2|(E2 & D2 & L2)].
  - left; congruence.
  - right. repeat split; congruence.
  - right. repeat split; [congruence|congruence|lia].
  - congruence.
Qed.

Lemma handle_error_state error tag_name c :
  _state (_handle_error error tag_name c)
  = let s := count_error error (_state c) in
    if (error_count s >? 5)%Z && ConnectionStatus_eqb (status s) CONNECTED
    then set_status DEGRADED s else s.
Proof.
  unfold _handle_error. simpl.
  destruct ((error_count (_state c) + 1 >? 5)%Z
            && ConnectionStatus_eqb (status (_state c)) CONNECTED); reflexivity.
Qed.

Lemma ConnectionStatus_eqb_eq a b : ConnectionStatus_eqb a b = true <-> a = b.
Proof. destruct a, b; simpl; split; congruence. Qed.

Lemma handle_error_step error tag_name c :
  accounting_step (_state c) (_state (_handle_error error tag_name c)).
Proof.
  rewrite handle_error_state. simpl.
  destruct (error_count (_state c) + 1 >? 5)%Z eqn:Hgt; simpl.
  - destruct (ConnectionStatus_eqb (status (_state c)) CONNECTED) eqn:Hst.
    + apply ConnectionStatus_eqb_eq in Hst.
      unfold accounting_step; simpl. split; [reflexivity|]. split; [lia|].
      right. repeat split; [assumption|lia].
    + unfold accounting_step; simpl. split; [reflexivity|]. split; [lia|auto].
  - unfold accounting_step; simpl. split; [reflexivity|]. split; [lia|auto].
Qed.

(** ** read_tag and write_tag *)

Opaque _handle_error.

Lemma read_tag_step n c :
  accounting_step (_state c) (_state (snd (read_tag n c))).
Proof.
  unfold read_tag, lookup_plc_name. run_monad.
  destruct (is_connected (_state c)); simpl; [|apply accounting_step_refl].
  destruct (is_valid_tag tag_map n); simpl; [|apply accounting_step_refl].
  destruct (is_readable tag_map n); simpl; [|apply accounting_step_refl].
  destruct (get_plc_name tag_map n) as [p|]; simpl; [|apply accounting_step_refl].
  unfold backend_read.
  destruct (_simulated_plc c); simpl; [apply accounting_step_refl|].
  destruct (_plc c); simpl.
  - destruct (plc_read_variable driver (trace c) p); simpl;
      [|apply accounting_step_refl].
    match goal with |- accounting_step _ (_state (_handle_error ?e ?t ?c')) =>
      apply (handle_error_step e t c') end.
  - match goal with |- accounting_step _ (_state (_handle_error ?e ?t ?c')) =>
      apply (handle_error_step e t c') end.
Qed.

Lemma write_tag_step n v c :
  accounting_step (_state c) (_state (snd (write_tag n v c))).
Proof.
  unfold write_tag, lookup_plc_name. run_monad.
  destruct (is_connected (_state c)); simpl; [|apply accounting_step_refl].
  destruct (is_valid_tag tag_map n); simpl; [|apply accounting_step_refl].
  destruct (is_writable tag_map n); simpl; [|apply accounting_step_refl].
  destruct (validate_value tag_map n v); simpl; [|apply accounting_step_refl].
  destruct (get_plc_name tag_map n) as [p|]; simpl; [|apply accounting_step_refl].
  unfold backend_write.
  destruct (_simulated_plc c); simpl; [apply accounting_step_refl|].
  destruct (_plc c); simpl.
  - destruct (plc_write_variable driver (trace c) p v); simpl;
      [|apply accounting_step_refl].
    match goal with |- accounting_step _ (_state (_handle_error ?e ?t ?c')) =>
      apply (handle_error_step e t c') end.
  - match goal with |- accounting_step _ (_state (_handle_error ?e ?t ?c')) =>
      apply (handle_error_step e t c') end.
Qed.

Transparent _handle_error.

(** C5: a call rejected by validation changes nothing: the client it
    leaves is the client it found, so no backend call was made and the
    error counter did not move.  While connected it raises a [CIPTagError]
    that names the first failed check, in the order existence, direction,
    value; when not connected it raises the [CIPConnectionError] of the
    connection guard, which comes before all of them. *)
Theorem C5_validation_rejects_before_backend
    (c : CIPClient) (logical_name : string) (value : PyValue) :
  let guard (e : Exn) : Exn :=
    if is_connected (_state c) then e
    else CIPConnectionError "Não conectado ao CLP" in
  (is_valid_tag tag_map logical_name = false ->
     read_tag logical_name c
     = (Raise (guard (CIPTagError ("TAG não permitido: " +:+ logical_name))), c))
  /\ (is_valid_tag tag_map logical_name = true ->
      is_readable tag_map logical_name = false ->
      read_tag logical_name c
      = (Raise (guard (CIPTagError ("TAG não pode ser lido: " +:+ logical_name))), c))
  /\ (is_valid_tag tag_map logical_name = false ->
      write_tag logical_name value c
      = (Raise (guard (CIPTagError ("TAG não permitido: " +:+ logical_name))), c))
  /\ (is_valid_tag tag_map logical_name = true ->
      is_writable tag_map logical_name = false ->
      write_tag logical_name value c
      = (Raise (guard (CIPTagError ("TAG não pode ser escrito: " +:+ logical_name))), c))
  /\ (is_valid_tag tag_map logical_name = true ->
      is_writable tag_map logical_name = true ->
      validate_value tag_map logical_name value = false ->
      write_tag logical_name value c
      = (Raise (guard (CIPTagError ("Valor inválido para TAG " +:+ logical_name
                                    +:+ ": " +:+ py_str value))), c)).
Proof.
  unfold read_tag, write_tag. run_monad.
  destruct (is_connected (_state c)); simpl.
  - repeat split.
    + intros ->. reflexivity.
    + intros -> ->. reflexivity.
    + intros ->. reflexivity.
    + intros -> ->. reflexivity.
    + intros -> -> ->. reflexivity.
  - repeat split; reflexivity.
Qed.

(** ** write_detection_result *)

Lemma write_tag_not_connected n v c :
  is_connected (_state c) = false ->
  write_tag n v c = (Raise (CIPConnectionError "Não conectado ao CLP"), c).
Proof. intros H. unfold write_tag. run_monad. rewrite H. reflexivity. Qed.

Lemma write_tag_not_allowed n v c :
  is_connected (_state c) = true ->
  is_valid_tag tag_map n = false ->
  write_tag n v c = (Raise (CIPTagError ("TAG não permitido: " +:+ n)), c).
Proof. intros H1 H2. unfold write_tag. run_monad. rewrite H1, H2. reflexivity. Qed.

Opaque write_tag.

Lemma first_failure_None ws : forall c,
  first_failure ws c = None <->
  (forall j w, ws !! j = Some w ->
               write_returns w (after_writes (take j ws) c) = true).
Proof.
  induction ws as [|w0 ws IH]; intros c; simpl.
  - split; [intros _ j w Hj; destruct j; discriminate|reflexivity].
  - destruct (write_returns w0 c) eqn:Hr.
    + rewrite fmap_None, IH. split.
      * intros H [|j] w Hj; simpl in *; [congruence|]. apply (H j w Hj).
      * intros H j w Hj. apply (H (S j) w Hj).
    + split; [discriminate|].
      intros H. specialize (H 0%nat w0 eq_refl). simpl in H. congruence.
Qed.

Lemma first_failure_Some ws : forall c k,
  first_failure ws c = Some k <->
  (exists w, ws !! k = Some w
             /\ write_returns w (after_writes (take k ws) c) = false)
  /\ (forall j w, (j < k)%nat -> ws !! j = Some w ->
                  write_returns w (after_writes (take j ws) c) = true).
Proof.
  induction ws as [|w0 ws IH]; intros c k; simpl.
  - split; [discriminate|]. intros [(w & Hw & _) _]. destruct k; discriminate.
  - destruct (write_returns w0 c) eqn:Hr.
    + rewrite fmap_Some. split.
      * intros (k' & Hk' & ->). apply IH in Hk' as [(w & Hw & Hf) Hlt].
        split; [exists w; auto|].
        intros [|j] w' Hj Hw'; simpl in *; [congruence|].
        apply (Hlt j w'); [lia|assumption].
      * intros [(w & Hw & Hf) Hlt]. destruct k as [|k]; simpl in *.
        { congruence. }
        exists k. split; [|reflexivity]. apply IH. split; [exists w; auto|].
        intros j w' Hj Hw'. apply (Hlt (S j) w'); [lia|assumption].
    + split.
      * intros [= <-]. split; [exists w0; auto|]. intros j w Hj; lia.
      * intros [(w & Hw & Hf) Hlt]. destruct k as [|k]; [reflexivity|].
        specialize (Hlt 0%nat w0 ltac:(lia) eq_refl). simpl in Hlt. congruence.
Qed.

(** The composite write is the in-order run of its seven sub-writes cut
    after the first one that raises. *)
Lemma write_detection_result_run d x y cf k t c :
  write_detection_result d x y cf k t c
  = match first_failure (detection_writes d x y cf k t) c with
    | None => (Return true, after_writes (detection_writes d x y cf k t) c)
    | Some i =>
        (Return false, after_writes (take (S i) (detection_writes d x y cf k t)) c)
    end.
Proof.
  unfold write_detection_result, detection_writes. run_monad.
  unfold write_returns, after_writes. simpl.
  repeat match goal with
  | H : write_tag ?n ?v ?c0 = _ |- context [write_tag ?n ?v ?c0] =>
      rewrite H; simpl
  | |- context [write_tag ?n ?v ?c0] =>
      is_var c0; destruct (write_tag n v c0) as [[?|?] ?] eqn:?; simpl
  end; reflexivity.
Qed.

(** C4: the sub-writes go out in the order detection flag, centroid X,
    centroid Y, confidence, detection count, processing time, data-sent
    flag.  The call returns [True] exactly when each of them returns; when
    the one at position [k] is the first to raise, the call returns [False]
    and leaves the client as it is after the writes at positions [0..k],
    so no later one was attempted. *)
Theorem C4_detection_writes_in_order_until_failure
    (detected centroid_x centroid_y confidence detection_count processing_time : PyValue)
    (c : CIPClient) :
  let ws := detection_writes detected centroid_x centroid_y confidence
              detection_count processing_time in
  let returns_at (j : nat) (w : string * PyValue) : Prop :=
    write_returns w (after_writes (take j ws) c) = true in
  let call := write_detection_result detected centroid_x centroid_y confidence
                detection_count processing_time c in
  ws = [ ("ProductDetected", detected); ("CentroidX", centroid_x);
         ("CentroidY", centroid_y); ("Confidence", confidence);
         ("DetectionCount", detection_count); ("ProcessingTime", processing_time);
         ("VisionDataSent", PyBool true) ]
  /\ (fst call = Return true <-> forall j w, ws !! j = Some w -> returns_at j w)
  /\ ((forall j w, ws !! j = Some w -> returns_at j w) ->
      call = (Return true, after_writes ws c))
  /\ (forall k w,
        ws !! k = Some w ->
        (forall j w', (j < k)%nat -> ws !! j = Some w' -> returns_at j w') ->
        write_returns w (after_writes (take k ws) c) = false ->
        call = (Return false, after_writes (take (S k) ws) c)).
Proof.
  intros ws returns_at call. subst call returns_at ws. cbv beta.
  rewrite write_detection_result_run.
  split; [reflexivity|].
  split; [|split].
  - rewrite <- first_failure_None.
    destruct (first_failure _ c); simpl; split; congruence.
  - intros H. apply first_failure_None in H. rewrite H. reflexivity.
  - intros k w Hw Hlt Hf.
    assert (first_failure
              (detection_writes detected centroid_x centroid_y confidence
                 detection_count processing_time) c = Some k) as ->; [|reflexivity].
    apply first_failure_Some. split; [exists w; auto|exact Hlt].
Qed.

(** C10: [write_detection_result] always returns a boolean and never
    raises; it returns [False] as soon as a sub-write raises, be it the
    connection error of a client that is not connected, a validation error
    or a failed backend write. *)
Theorem C10_write_detection_result_never_raises
    (detected centroid_x centroid_y confidence detection_count processing_time : PyValue)
    (c : CIPClient) :
  let ws := detection_writes detected centroid_x centroid_y confidence
              detection_count processing_time in
  let call := write_detection_result detected centroid_x centroid_y confidence
                detection_count processing_time c in
  (exists b c', call = (Return b, c'))
  /\ (forall e, fst call <> Raise e)
  /\ (first_failure ws c <> None -> fst call = Return false)
  /\ (is_connected (_state c) = false ->
      fst (write_tag "ProductDetected" detected c)
        = Raise (CIPConnectionError "Não conectado ao CLP")
      /\ call = (Return false, c))
  /\ (is_connected (_state c) = true ->
      is_valid_tag tag_map "ProductDetected" = false ->
      fst (write_tag "ProductDetected" detected c)
        = Raise (CIPTagError "TAG não permitido: ProductDetected")
      /\ call = (Return false, c)).
Proof.
  intros ws call. subst call ws. rewrite write_detection_result_run.
  split; [|split; [|split; [|split]]].
  - destruct (first_failure _ c); eauto.
  - intros e. destruct (first_failure _ c); simpl; discriminate.
  - destruct (first_failure _ c); simpl; congruence.
  - intros Hn. simpl. unfold write_returns, after_writes. simpl.
    rewrite (write_tag_not_connected _ _ _ Hn). simpl. auto.
  - intros Hc Hv. simpl. unfold write_returns, after_writes. simpl.
    rewrite (write_tag_not_allowed _ _ _ Hc Hv). simpl. auto.
Qed.


(** ** disconnect *)

Lemma disconnect_result c :
  exists c',
    disconnect c = (Return tt, c')
    /\ _state c' = set_status DISCONNECTED (_state c)
    /\ _plc c' = None
    /\ _simulated_plc c' = None.
Proof.
  unfold disconnect, _stop_heartbeat, plc_close. run_monad.
  destruct (_heartbeat_timer c); simpl;
    (destruct (_plc c) eqn:Hp; simpl;
     [destruct (close driver (trace c)); simpl|]);
    eexists; (split; [reflexivity|]); repeat split; simpl; auto.
Qed.

(** ** What each operation does to the connection state *)

Lemma after_writes_step ws : forall c,
  accounting_step (_state c) (_state (after_writes ws c)).
Proof.
  induction ws as [|w ws IH]; intros c; simpl.
  - apply accounting_step_refl.
  - eapply accounting_step_trans; [apply write_tag_step|apply IH].
Qed.

Lemma write_detection_result_step d x y cf k t c :
  accounting_step (_state c) (_state (snd (write_detection_result d x y cf k t c))).
Proof.
  rewrite write_detection_result_run.
  destruct (first_failure _ c); apply after_writes_step.
Qed.

Lemma send_heartbeat_step c :
  accounting_step (_state c) (_state (_send_heartbeat c)).
Proof.
  unfold _send_heartbeat.
  apply (write_tag_step "VisionHeartbeat" _ (set_heartbeat_value _ c)).
Qed.

Lemma sim_timer_state i c : _state (sim_timer i c) = _state c.
Proof. unfold sim_timer. destruct (_simulated_plc c); reflexivity. Qed.

(** Every operation other than [connect] and [disconnect] is at most an
    error-accounting step on the connection state. *)
Lemma exec_step op c :
  (forall cfg, op <> OpConnect cfg) -> op <> OpDisconnect ->
  accounting_step (_state c) (_state (exec c op)).
Proof.
  intros Hc Hd. destruct op.
  - destruct (Hc cfg eq_refl).
  - destruct (Hd eq_refl).
  - exact (read_tag_step logical_name c).
  - exact (write_tag_step logical_name value c).
  - exact (write_detection_result_step detected centroid_x centroid_y confidence
             detection_count processing_time c).
  - exact (handle_error_step error tag_name c).
  - exact (send_heartbeat_step c).
  - change (exec c (OpSimTimer i)) with (sim_timer i c).
    rewrite sim_timer_state. apply accounting_step_refl.
Qed.

(** No operation lowers the error counter: nothing ever resets it. *)
Lemma exec_error_count_mono op c :
  (error_count (_state c) <= error_count (_state (exec c op)))%Z.
Proof.
  destruct op;
    try (apply exec_step; [intros cfg0; discriminate|discriminate]).
  - simpl. destruct (is_connected (_state c)) eqn:E.
    + rewrite connect_when_connected by exact E. simpl. lia.
    + destruct (connect_when_not_connected cfg c E) as (c' & -> & He & _).
      simpl. lia.
  - simpl. destruct (disconnect_result c) as (c' & -> & Hs & _). simpl.
    rewrite Hs. simpl. lia.
Qed.

(** The half of the status/flag relation that every execution keeps: a
    SIMULATED client has [is_simulated] set. *)
Lemma exec_simulated_flag op c :
  (status (_state c) = SIMULATED -> is_simulated (_state c) = true) ->
  status (_state (exec c op)) = SIMULATED ->
  is_simulated (_state (exec c op)) = true.
Proof.
  intros Inv.
  assert (Hacc : forall s', accounting_step (_state c) s' ->
                            status s' = SIMULATED -> is_simulated s' = true).
  { intros s' (Hf & _ & [Hs|(_ & Hs & _)]) H; [|congruence].
    rewrite Hf. apply Inv. congruence. }
  destruct op;
    try (apply Hacc, exec_step; [intros cfg0; discriminate|discriminate]).
  - simpl. destruct (is_connected (_state c)) eqn:E.
    + rewrite connect_when_connected by exact E. exact Inv.
    + destruct (connect_when_not_connected cfg c E) as (c' & -> & _ & Hm).
      simpl. destruct (cip_simulated cfg); [tauto|].
      destruct (connect_explicit driver _ _ _); [|tauto|tauto].
      destruct Hm as [Hs _]. congruence.
  - simpl. destruct (disconnect_result c) as (c' & -> & Hs & _). simpl.
    rewrite Hs. discriminate.
Qed.

Lemma reachable_simulated_flag c :
  reachable c -> status (_state c) = SIMULATED -> is_simulated (_state c) = true.
Proof.
  intros (cfg & ops & ->). unfold exec_all.
  induction ops as [|op ops IH] using rev_ind.
  - discriminate.
  - rewrite foldl_app. simpl. apply exec_simulated_flag. exact IH.
Qed.

(** C2: an error counted while CONNECTED that takes the counter above 5
    moves the status to DEGRADED; a DEGRADED client stays DEGRADED under
    every operation but [disconnect], which leaves it DISCONNECTED; and
    [disconnect] followed by [connect] succeeds with the error counter
    exactly where it was: it is not reset. *)
Theorem C2_degraded_until_disconnect_counter_kept (c : CIPClient) :
  (forall error tag_name,
     status (_state c) = CONNECTED ->
     (5 < error_count (_state c) + 1)%Z ->
     status (_state (_handle_error error tag_name c)) = DEGRADED
     /\ error_count (_state (_handle_error error tag_name c))
        = (error_count (_state c) + 1)%Z)
  /\ (forall op,
        status (_state c) = DEGRADED -> op <> OpDisconnect ->
        status (_state (exec c op)) = DEGRADED)
  /\ status (_state (snd (disconnect c))) = DISCONNECTED
  /\ (forall cfg, exists c',
        connect cfg (snd (disconnect c)) = (Return true, c')
        /\ (status (_state c') = CONNECTED \/ status (_state c') = SIMULATED)
        /\ error_count (_state c') = error_count (_state c)).
Proof.
  split; [|split; [|split]].
  - intros error tag_name Hs Hgt. rewrite handle_error_state. simpl.
    rewrite Hs. simpl.
    destruct (error_count (_state c) + 1 >? 5)%Z eqn:E; [auto|lia].
  - intros op Hs Hop.
    destruct op; try congruence;
      try (match goal with |- status (_state (exec c ?o)) = _ =>
             destruct (exec_step o c ltac:(intros cfg0; discriminate) ltac:(discriminate))
               as (_ & _ & [H|(H & _)]); congruence end).
    simpl. rewrite connect_when_connected; [exact Hs|].
    unfold is_connected. rewrite Hs. reflexivity.
  - destruct (disconnect_result c) as (c' & -> & Hs & _). simpl.
    rewrite Hs. reflexivity.
  - intros cfg. destruct (disconnect_result c) as (c1 & -> & Hst & _). simpl.
    destruct (connect_when_not_connected cfg c1) as (c' & Hc & He & Hm).
    { unfold is_connected. rewrite Hst. reflexivity. }
    exists c'. split; [exact Hc|]. split.
    + destruct (cip_simulated cfg); [tauto|].
      destruct (connect_explicit driver _ _ _); tauto.
    + rewrite He, Hst. reflexivity.
Qed.

(** ** Invariants of executions *)

(** A property kept by the seven building blocks is kept by every
    operation. *)
Lemma exec_preserves (P : CIPClient -> Prop) :
  (forall cfg c, P c -> P (connect cfg c).2) ->
  (forall c, P c -> P (disconnect c).2) ->
  (forall n c, P c -> P (read_tag n c).2) ->
  (forall n v c, P c -> P (write_tag n v c).2) ->
  (forall e t c, P c -> P (_handle_error e t c)) ->
  (forall b c, P c -> P (set_heartbeat_value b c)) ->
  (forall i c, P c -> P (sim_timer i c)) ->
  forall c op, P c -> P (exec c op).
Proof.
  intros Hco Hdi Hrd Hwr Hhe Hhb Hst c op Pc. destruct op.
  - exact (Hco cfg c Pc).
  - exact (Hdi c Pc).
  - exact (Hrd logical_name c Pc).
  - exact (Hwr logical_name value c Pc).
  - cbn [exec]. rewrite write_detection_result_run.
    assert (Haw : forall ws c0, P c0 -> P (after_writes ws c0)).
    { induction ws as [|w ws IH]; intros c0 P0; [exact P0|].
      change (P (after_writes ws (write_tag w.1 w.2 c0).2)).
      apply IH, Hwr, P0. }
    destruct (first_failure _ c); cbn [snd]; apply Haw, Pc.
  - exact (Hhe error tag_name c Pc).
  - cbn [exec]. unfold _send_heartbeat. apply Hwr, Hhb, Pc.
  - exact (Hst i c Pc).
Qed.

Lemma reachable_invariant (P : CIPClient -> Prop) :
  (forall cfg, P (__init__ cfg)) ->
  (forall c op, P c -> P (exec c op)) ->
  forall c, reachable c -> P c.
Proof.
  intros Hinit Hstep c (cfg & ops & ->). unfold exec_all.
  induction ops as [|op ops IH] using rev_ind; simpl.
  - apply Hinit.
  - rewrite foldl_app. simpl. apply Hstep, IH.
Qed.

(** Case analysis over the branches of a method body. *)
Ltac branches :=
  repeat match goal with
  | |- context [match ?x with _ => _ end] => destruct x eqn:?; simpl
  | |- context [if ?x then _ else _] => destruct x eqn:?; simpl
  end.

(** [connect] is a no-op on a connected client and [connect_outcome]
    otherwise; it returns [True] either way. *)
Lemma connect_closed_form cfg c :
  connect cfg c
  = (Return true, if is_connected (_state c) then c else connect_outcome cfg c).
Proof.
  unfold connect, connect_outcome. run_monad.
  destruct (is_connected (_state c)); [reflexivity|].
  destruct (cip_simulated cfg) eqn:Hsim; simpl; [reflexivity|].
  unfold _connect_sync. simpl.
  destruct (connect_explicit driver _ _ _); reflexivity.
Qed.

Ltac unfold_methods :=
  unfold connect_outcome, enter_simulated, enter_connected,
    disconnect, plc_close, _reload_connection_config,
    _handle_error, _update_state, _start_heartbeat, _stop_heartbeat, sim_timer,
    is_connected in *;
  run_monad.

Ltac finish_fields :=
  repeat split; simpl; try congruence; try (eexists; reflexivity); eauto.

Transparent write_tag.

Lemma handle_error_keeps e t c : keeps_session c (_handle_error e t c).
Proof.
  unfold keeps_session, _handle_error, _update_state. simpl.
  destruct ((error_count (_state c) + 1 >? 5)%Z
            && ConnectionStatus_eqb (status (_state c)) CONNECTED);
    simpl; repeat split; auto.
Qed.

Lemma read_tag_keeps n c : keeps_session c (read_tag n c).2.
Proof.
  unfold keeps_session, read_tag, lookup_plc_name, backend_read,
    _handle_error, _update_state. run_monad.
  destruct (is_connected (_state c)); simpl; [|repeat split; auto].
  destruct (is_valid_tag tag_map n); simpl; [|repeat split; auto].
  destruct (is_readable tag_map n); simpl; [|repeat split; auto].
  destruct (get_plc_name tag_map n) as [p|]; simpl; [|repeat split; auto].
  destruct (_simulated_plc c) eqn:Es; simpl;
    [rewrite ?Es; repeat split; auto|].
  destruct (_plc c) eqn:Ep; simpl;
    [destruct (plc_read_variable driver (trace c) p); simpl|];
    repeat match goal with
    | |- context [if ?x then _ else _] => destruct x; simpl
    end; rewrite ?Es, ?Ep; repeat split; auto.
Qed.

Lemma write_tag_keeps n v c : keeps_session c (write_tag n v c).2.
Proof.
  unfold keeps_session, write_tag, lookup_plc_name, backend_write,
    _handle_error, _update_state. run_monad.
  destruct (is_connected (_state c)); simpl; [|repeat split; auto].
  destruct (is_valid_tag tag_map n); simpl; [|repeat split; auto].
  destruct (is_writable tag_map n); simpl; [|repeat split; auto].
  destruct (validate_value tag_map n v); simpl; [|repeat split; auto].
  destruct (get_plc_name tag_map n) as [p|]; simpl; [|repeat split; auto].
  destruct (_simulated_plc c) eqn:Es; simpl;
    [rewrite ?Es; repeat split; eauto|].
  destruct (_plc c) eqn:Ep; simpl;
    [destruct (plc_write_variable driver (trace c) p v); simpl|];
    repeat match goal with
    | |- context [if ?x then _ else _] => destruct x; simpl
    end; rewrite ?Es, ?Ep; repeat split; auto.
Qed.

(** The handles of a client survive an error-accounting step made by an
    operation that keeps the session. *)
Lemma handles_agree_kept c c' :
  keeps_session c c' -> accounting_step (_state c) (_state c') ->
  handles_agree c -> handles_agree c'.
Proof.
  intros (_ & _ & _ & _ & _ & Hp & Hs & Hh & _) (_ & _ & Hst).
  unfold handles_agree. rewrite Hp, Hh.
  destruct Hst as [->|(-> & -> & _)].
  - destruct (status (_state c)); intros H; try exact H;
      destruct H as (H1 & H2 & H3); repeat split; auto;
      try (apply Hs; exact H2);
      destruct (_simulated_plc c') eqn:E; auto;
      rewrite H2 in Hs; destruct (proj1 Hs ltac:(eauto)); discriminate.
  - intros (H1 & H2 & H3). repeat split; auto.
    destruct (_simulated_plc c') eqn:E; auto.
    rewrite H2 in Hs; destruct (proj1 Hs ltac:(eauto)); discriminate.
Qed.

Lemma handles_agree_exec c op : handles_agree c -> handles_agree (exec c op).
Proof.
  revert c op. apply (exec_preserves handles_agree).
  - intros cfg c H. rewrite connect_closed_form. unfold handles_agree in *. simpl.
    destruct (is_connected (_state c)) eqn:Hc; [exact H|].
    unfold_methods.
    destruct (status (_state c)) eqn:Hs; try discriminate; [|destruct H].
    destruct H as (Hp & Hsim & Hhb).
    destruct (cip_simulated cfg); simpl; rewrite ?Hhb; simpl; [finish_fields|].
    destruct (connect_explicit driver _ _ _); simpl; rewrite ?Hhb; simpl;
      finish_fields.
  - intros c H. unfold handles_agree in *. unfold_methods.
    clear H. destruct (_heartbeat_timer c) eqn:Eh; simpl;
      (destruct (_plc c) eqn:Ep; simpl; [destruct (close driver (trace c)); simpl|]);
      finish_fields.
  - intros n c. apply handles_agree_kept; [apply read_tag_keeps|apply read_tag_step].
  - intros n v c.
    apply handles_agree_kept; [apply write_tag_keeps|apply write_tag_step].
  - intros e t c.
    apply handles_agree_kept; [apply handle_error_keeps|apply handle_error_step].
  - intros b c H. exact H.
  - intros i c H. unfold handles_agree, sim_timer in *.
    destruct (_simulated_plc c) eqn:Es; simpl; rewrite ?Es; [|exact H].
    destruct (status (_state c)); try exact H;
      destruct H as (H1 & H2 & H3); try discriminate; eauto.
Qed.

Opaque write_tag.

Lemma handles_agree_reachable c : reachable c -> handles_agree c.
Proof.
  apply (reachable_invariant handles_agree).
  - intros cfg. unfold handles_agree. simpl. auto.
  - intros c0 op. apply handles_agree_exec.
Qed.





(** ** The error counter and the metrics *)

Lemma errors_recorded_snoc h e :
  errors_recorded (h ++ [e])
  = (errors_recorded h + (if is_error_increment e then 1 else 0))%Z.
Proof.
  unfold errors_recorded. rewrite List.filter_app, length_app. simpl.
  destruct (is_error_increment e); simpl; lia.
Qed.

Ltac count_events :=
  simpl; rewrite ?errors_recorded_snoc; simpl; try lia.

Transparent write_tag.

Lemma errors_accounted_exec c op : errors_accounted c -> errors_accounted (exec c op).
Proof.
  revert c op. apply (exec_preserves errors_accounted); unfold errors_accounted.
  - intros cfg c H. rewrite connect_closed_form. simpl.
    destruct (is_connected (_state c)) eqn:Hc; [exact H|].
    unfold_methods.
    destruct (cip_simulated cfg); simpl;
      [destruct (_heartbeat_timer c); count_events|].
    destruct (connect_explicit driver _ _ _); simpl;
      destruct (_heartbeat_timer c); count_events.
  - intros c H. unfold_methods.
    destruct (_heartbeat_timer c); simpl;
      (destruct (_plc c); simpl; [destruct (close driver (trace c)); simpl|]);
      count_events.
  - intros n c H.
    unfold read_tag, lookup_plc_name, backend_read, _handle_error, _update_state.
    run_monad.
    destruct (is_connected (_state c)); simpl; [|exact H].
    destruct (is_valid_tag tag_map n); simpl; [|exact H].
    destruct (is_readable tag_map n); simpl; [|exact H].
    destruct (get_plc_name tag_map n) as [p|]; simpl; [|exact H].
    destruct (_simulated_plc c); simpl; [count_events|].
    destruct (_plc c); simpl;
      [destruct (plc_read_variable driver (trace c) p); simpl|];
      repeat match goal with
      | |- context [if ?x then _ else _] => destruct x; simpl
      end; count_events.
  - intros n v c H.
    unfold write_tag, lookup_plc_name, backend_write, _handle_error, _update_state.
    run_monad.
    destruct (is_connected (_state c)); simpl; [|exact H].
    destruct (is_valid_tag tag_map n); simpl; [|exact H].
    destruct (is_writable tag_map n); simpl; [|exact H].
    destruct (validate_value tag_map n v); simpl; [|exact H].
    destruct (get_plc_name tag_map n) as [p|]; simpl; [|exact H].
    destruct (_simulated_plc c); simpl; [count_events|].
    destruct (_plc c); simpl;
      [destruct (plc_write_variable driver (trace c) p v); simpl|];
      repeat match goal with
      | |- context [if ?x then _ else _] => destruct x; simpl
      end; count_events.
  - intros e t c H. unfold _handle_error, _update_state. simpl.
    repeat match goal with
    | |- context [if ?x then _ else _] => destruct x; simpl
    end; count_events.
  - intros b c H. exact H.
  - intros i c H. unfold sim_timer. destruct (_simulated_plc c); exact H.
Qed.

Opaque write_tag.

(** X7: In every state an execution reaches, the error counter equals the
    number of [cip_errors] increments sent to the metrics collector: every
    counted error was reported, and nothing ever lowers or resets the
    counter. *)
Theorem reachable_errors_accounted (c : CIPClient) :
  reachable c -> errors_accounted c.
Proof.
  apply (reachable_invariant errors_accounted).
  - intros cfg. reflexivity.
  - intros c0 op. apply errors_accounted_exec.
Qed.

(** ** connect and disconnect *)

Lemma connect_outcome_connected cfg c : is_connected (_state (connect_outcome cfg c)) = true.
Proof.
  unfold_methods.
  destruct (cip_simulated cfg); simpl;
    [destruct (_heartbeat_timer c); reflexivity|].
  destruct (connect_explicit driver _ _ _); simpl;
    destruct (_heartbeat_timer c); reflexivity.
Qed.

(** X1: A second [connect] is a no-op, whatever the configuration has become
    in between: after any [connect], a further [connect] returns [True] and
    leaves the client, its parameters and its event history untouched. *)
Theorem connect_twice_is_connect_once (cfg cfg' : Settings) (c : CIPClient) :
  connect cfg' (connect cfg c).2 = (Return true, (connect cfg c).2)
  /\ (is_connected (_state c) = true -> connect cfg c = (Return true, c)).
Proof.
  split.
  - rewrite (connect_closed_form cfg c). simpl snd.
    rewrite connect_closed_form.
    destruct (is_connected (_state c)) eqn:Hc.
    + rewrite Hc. reflexivity.
    + rewrite connect_outcome_connected. reflexivity.
  - intros Hc. rewrite connect_closed_form, Hc. reflexivity.
Qed.

(** X3: [disconnect] never raises, also when the driver's [close] does.  It
    leaves the client DISCONNECTED without session, simulated device or
    heartbeat timer, changes nothing else of the connection state (the error
    counter and the simulation flag stay), calls [close] exactly when a
    session was open, and emits [disconnected] last. *)
Theorem disconnect_always_succeeds (c : CIPClient) :
  exists c',
    disconnect c = (Return tt, c')
    /\ _state c' = set_status DISCONNECTED (_state c)
    /\ _plc c' = None
    /\ _simulated_plc c' = None
    /\ _heartbeat_timer c' = None
    /\ trace c'
       = trace c
         ++ match _plc c with Some _ => [EvClose] | None => [] end
         ++ [EvEmit (state_changed (set_status DISCONNECTED (_state c)));
             EvLogDisconnect; EvEmit disconnected].
Proof.
  unfold_methods.
  destruct (_heartbeat_timer c) eqn:Eh; simpl;
    (destruct (_plc c) eqn:Ep; simpl; [destruct (close driver (trace c)); simpl|]);
    eexists; (split; [reflexivity|]); simpl;
    rewrite <- ?app_assoc; simpl; repeat split; auto.
Qed.

Transparent write_tag.

Lemma read_tag_not_connected n c :
  is_connected (_state c) = false ->
  read_tag n c = (Raise (CIPConnectionError "Não conectado ao CLP"), c).
Proof. intros H. unfold read_tag. run_monad. rewrite H. reflexivity. Qed.

Opaque write_tag.

(** X4: After [disconnect], every read and every write is refused with the
    connection error, whatever the tag, and leaves the client as
    [disconnect] left it: nothing reaches a backend and no error is
    counted. *)
Theorem io_after_disconnect_is_refused (c : CIPClient) (n : string) (v : PyValue) :
  let c' := (disconnect c).2 in
  read_tag n c' = (Raise (CIPConnectionError "Não conectado ao CLP"), c')
  /\ write_tag n v c' = (Raise (CIPConnectionError "Não conectado ao CLP"), c').
Proof.
  intros c'. subst c'.
  destruct (disconnect_result c) as (c' & -> & Hs & _). simpl.
  assert (Hn : is_connected (_state c') = false)
    by (unfold is_connected; rewrite Hs; reflexivity).
  split; [apply read_tag_not_connected|apply write_tag_not_connected]; exact Hn.
Qed.

(** ** The degradation threshold *)

Lemma report_errors_snoc errs e c :
  report_errors (errs ++ [e]) c = _handle_error e.1 e.2 (report_errors errs c).
Proof. unfold report_errors. rewrite foldl_app. reflexivity. Qed.

(** X8: Error reports on a CONNECTED client add one to the counter each, and
    the client is DEGRADED after them exactly when at least one was made and
    the counter has passed 5; until then it stays CONNECTED.  From a counter
    at 0 that is the sixth report, not the fifth. *)
Theorem degraded_exactly_above_five
    (errs : list (string * option string)) (c : CIPClient) :
  status (_state c) = CONNECTED ->
  let c' := report_errors errs c in
  error_count (_state c') = (error_count (_state c) + Z.of_nat (length errs))%Z
  /\ status (_state c')
     = if (0 <? length errs)%nat && (5 <? error_count (_state c'))%Z
       then DEGRADED else CONNECTED.
Proof.
  intros Hs. induction errs as [|e errs IH] using rev_ind; simpl.
  - split; [lia|]. exact Hs.
  - rewrite report_errors_snoc, handle_error_state.
    destruct IH as (Hc & Hst). rewrite length_app.
    assert (Hlen : (0 <? length errs + length [e])%nat = true)
      by (apply Nat.ltb_lt; simpl; lia).
    rewrite Hlen.
    set (s := _state (report_errors errs c)) in *. simpl.
    rewrite Z.gtb_ltb.
    destruct (5 <? error_count s + 1)%Z eqn:Hgt;
      destruct (ConnectionStatus_eqb (status s) CONNECTED) eqn:He; simpl;
      rewrite ?Hgt; (split; [lia|]); try reflexivity.
    + destruct ((0 <? length errs)%nat && (5 <? error_count s)%Z);
        [exact Hst|]. rewrite Hst in He. discriminate.
    + apply ConnectionStatus_eqb_eq in He. exact He.
    + replace (5 <? error_count s)%Z with false in Hst by lia.
      rewrite andb_false_r in Hst. exact Hst.
Qed.

(** ** Reads and writes on a real session *)

Transparent write_tag.

(** X10: A read the tag table accepts, on a real session: when the driver
    returns a value the call returns it, leaves the connection state as it
    was and emits [tag_read]; when the driver raises, the call raises a
    [CIPTagError] that carries the logical name and the cause, counts exactly
    one error, records it as [last_error] and keeps the session open. *)
Theorem read_tag_on_real_session (c : CIPClient) (n p : string) :
  on_real_session c -> accepted_read n p ->
  match plc_read_variable driver (trace c) p with
  | inr v =>
      exists c',
        read_tag n c = (Return v, c')
        /\ _state c' = _state c
        /\ trace c' = trace c ++ [EvPlcRead p; EvLogRead p v true None;
                                  EvMetricRecord "cip_response_time";
                                  EvEmit (tag_read n v)]
  | inl e =>
      exists c',
        read_tag n c
          = (Raise (CIPTagError ("Erro ao ler TAG " +:+ n +:+ ": " +:+ e)), c')
        /\ error_count (_state c') = (error_count (_state c) + 1)%Z
        /\ last_error (_state c') = Some e
        /\ _plc c' = _plc c
        /\ is_connected (_state c') = true
        /\ EvEmit (connection_error e) ∈ trace c'
  end.
Proof.
  intros (Hc & Hsim & [s Hp]) (Hv & Hr & Hn).
  unfold read_tag, lookup_plc_name, backend_read. run_monad.
  rewrite Hc, Hv, Hr, Hn. simpl. rewrite Hsim, Hp. simpl.
  destruct (plc_read_variable driver (trace c) p) as [e|v]; simpl.
  - eexists. split; [reflexivity|].
    unfold _handle_error, _update_state. simpl.
    unfold is_connected in *.
    destruct (error_count (_state c) + 1 >? 5)%Z; simpl;
      [destruct (status (_state c)) eqn:Hs; simpl|];
      rewrite ?Hs, ?Hp, ?Hc; try discriminate;
      repeat split; auto; event_mem.
  - eexists. split; [reflexivity|]. simpl.
    rewrite <- !app_assoc. auto.
Qed.

(** X11: A write the tag table accepts, on a real session: when the driver
    accepts it the call returns [True], leaves the connection state as it
    was and emits [tag_written]; when the driver raises, the call raises a
    [CIPTagError] with the logical name and the cause, counts exactly one
    error and keeps the session open. *)
Theorem write_tag_on_real_session (c : CIPClient) (n p : string) (v : PyValue) :
  on_real_session c -> accepted_write n v p ->
  match plc_write_variable driver (trace c) p v with
  | None =>
      exists c',
        write_tag n v c = (Return true, c')
        /\ _state c' = _state c
        /\ trace c' = trace c ++ [EvPlcWrite p v; EvLogWrite p v true None;
                                  EvMetricRecord "cip_response_time";
                                  EvEmit (tag_written n v)]
  | Some e =>
      exists c',
        write_tag n v c
          = (Raise (CIPTagError ("Erro ao escrever TAG " +:+ n +:+ ": " +:+ e)), c')
        /\ error_count (_state c') = (error_count (_state c) + 1)%Z
        /\ last_error (_state c') = Some e
        /\ _plc c' = _plc c
        /\ is_connected (_state c') = true
        /\ EvEmit (connection_error e) ∈ trace c'
  end.
Proof.
  intros (Hc & Hsim & [s Hp]) (Hv & Hw & Hval & Hn).
  unfold write_tag, lookup_plc_name, backend_write. run_monad.
  rewrite Hc, Hv, Hw, Hval, Hn. simpl. rewrite Hsim, Hp. simpl.
  destruct (plc_write_variable driver (trace c) p v) as [e|]; simpl.
  - eexists. split; [reflexivity|].
    unfold _handle_error, _update_state. simpl.
    unfold is_connected in *.
    destruct (error_count (_state c) + 1 >? 5)%Z; simpl;
      [destruct (status (_state c)) eqn:Hs; simpl|];
      rewrite ?Hs, ?Hp, ?Hc; try discriminate;
      repeat split; auto; event_mem.
  - eexists. split; [reflexivity|]. simpl.
    rewrite <- !app_assoc. auto.
Qed.

Opaque write_tag.

(** ** Reads and writes on the simulated device *)

Lemma write_variable_tags' plc name v :
  SimulatedPLC._tags (SimulatedPLC.write_variable plc name v)
  = <[name := v]> (SimulatedPLC._tags plc).
Proof.
  unfold SimulatedPLC.write_variable.
  destruct (String.eqb name "PRODUCT_DETECTED" && truthy v); reflexivity.
Qed.

Transparent write_tag.

Lemma read_tag_simulated_state n c :
  is_Some (_simulated_plc c) ->
  _state (read_tag n c).2 = _state c
  /\ _simulated_plc (read_tag n c).2 = _simulated_plc c.
Proof.
  intros [sim Hsim].
  unfold read_tag, lookup_plc_name, backend_read. run_monad.
  destruct (is_connected (_state c)); simpl; [|auto].
  destruct (is_valid_tag tag_map n); simpl; [|auto].
  destruct (is_readable tag_map n); simpl; [|auto].
  destruct (get_plc_name tag_map n) as [p|]; simpl; [|auto].
  rewrite Hsim. simpl. auto.
Qed.

Lemma write_tag_simulated_state n v c :
  is_Some (_simulated_plc c) ->
  _state (write_tag n v c).2 = _state c
  /\ is_Some (_simulated_plc (write_tag n v c).2).
Proof.
  intros [sim Hsim].
  unfold write_tag, lookup_plc_name, backend_write. run_monad.
  destruct (is_connected (_state c)); simpl; [|eauto].
  destruct (is_valid_tag tag_map n); simpl; [|eauto].
  destruct (is_writable tag_map n); simpl; [|eauto].
  destruct (validate_value tag_map n v); simpl; [|eauto].
  destruct (get_plc_name tag_map n) as [p|]; simpl; [|eauto].
  rewrite Hsim. simpl. eauto.
Qed.

Opaque write_tag.

Lemma after_writes_simulated_state ws : forall c,
  is_Some (_simulated_plc c) ->
  _state (after_writes ws c) = _state c
  /\ is_Some (_simulated_plc (after_writes ws c)).
Proof.
  induction ws as [|w ws IH]; intros c Hsim; [auto|].
  change (after_writes (w :: ws) c)
    with (after_writes ws (write_tag w.1 w.2 c).2).
  destruct (write_tag_simulated_state w.1 w.2 c Hsim) as (Hs & Hsim').
  destruct (IH _ Hsim') as (Hs' & Hsim''). split; [congruence|assumption].
Qed.

(** X12: A SIMULATED client that an execution has reached never counts an error
    and never becomes DEGRADED through tag traffic: reads, writes, the
    composite detection write and the heartbeat all leave its connection
    state exactly as it was. *)
Theorem simulated_session_never_degrades (c : CIPClient) (op : Op) :
  reachable c -> status (_state c) = SIMULATED -> is_tag_io op = true ->
  _state (exec c op) = _state c.
Proof.
  intros Hr Hs Hio.
  assert (Hsim : is_Some (_simulated_plc c)).
  { pose proof (handles_agree_reachable c Hr) as H.
    unfold handles_agree in H. rewrite Hs in H. tauto. }
  destruct op; try discriminate; cbn [exec].
  - apply read_tag_simulated_state, Hsim.
  - apply write_tag_simulated_state, Hsim.
  - rewrite write_detection_result_run.
    destruct (first_failure _ c); cbn [snd];
      apply after_writes_simulated_state, Hsim.
  - unfold _send_heartbeat.
    apply (write_tag_simulated_state "VisionHeartbeat" _
             (set_heartbeat_value (negb (_heartbeat_value c)) c)), Hsim.
Qed.

Transparent write_tag.

(** X13: On the simulated device, a value written through [write_tag] is what
    the next [read_tag] of the same logical name returns, when the tag table
    lets the name through in both directions. *)
Theorem simulated_write_tag_read_tag_roundtrip
    (c : CIPClient) (sim : SimulatedPLC.t) (n p : string) (v : PyValue) :
  on_simulated_device c sim -> accepted_write n v p -> accepted_read n p ->
  exists c1 c2,
    write_tag n v c = (Return true, c1)
    /\ read_tag n c1 = (Return v, c2)
    /\ _simulated_plc c2 = Some (SimulatedPLC.write_variable sim p v).
Proof.
  intros (Hc & Hsim) (Hv & Hw & Hval & Hn) (_ & Hr & _).
  unfold write_tag, read_tag, lookup_plc_name, backend_write, backend_read.
  run_monad. rewrite Hc, Hv, Hw, Hval, Hn. simpl. rewrite Hsim. simpl.
  do 2 eexists. split; [reflexivity|]. simpl.
  rewrite Hc, Hr. simpl.
  unfold SimulatedPLC.read_variable.
  rewrite write_variable_tags', lookup_insert_eq. simpl. auto.
Qed.

(** ** The heartbeat *)

(** X14: [_send_heartbeat] flips the heartbeat bit whether or not the write
    goes through, so two beats restore it; on a client that is not connected
    the flip is all it does; on the simulated device, with the heartbeat tag
    accepted, the register then holds the new bit. *)
Theorem heartbeat_toggles (c : CIPClient) :
  _heartbeat_value (_send_heartbeat c) = negb (_heartbeat_value c)
  /\ _heartbeat_value (_send_heartbeat (_send_heartbeat c)) = _heartbeat_value c
  /\ (is_connected (_state c) = false ->
      _send_heartbeat c = set_heartbeat_value (negb (_heartbeat_value c)) c)
  /\ (forall sim p,
        on_simulated_device c sim ->
        accepted_write "VisionHeartbeat" (PyBool (negb (_heartbeat_value c))) p ->
        exists sim',
          _simulated_plc (_send_heartbeat c) = Some sim'
          /\ SimulatedPLC.read_variable sim' p = PyBool (negb (_heartbeat_value c))).
Proof.
  assert (Hflip : forall c0, _heartbeat_value (_send_heartbeat c0)
                             = negb (_heartbeat_value c0)).
  { intros c0. unfold _send_heartbeat.
    pose proof (write_tag_keeps "VisionHeartbeat"
                  (PyBool (_heartbeat_value
                             (set_heartbeat_value (negb (_heartbeat_value c0)) c0)))
                  (set_heartbeat_value (negb (_heartbeat_value c0)) c0)) as K.
    destruct K as (_ & _ & _ & _ & _ & _ & _ & _ & K & _). exact K. }
  split; [apply Hflip|]. split; [rewrite !Hflip; apply negb_involutive|].
  split.
  - intros Hn. unfold _send_heartbeat.
    rewrite write_tag_not_connected; [reflexivity|exact Hn].
  - intros sim p (Hc & Hsim) (Hv & Hw & Hval & Hn).
    unfold _send_heartbeat, write_tag, lookup_plc_name, backend_write.
    run_monad. rewrite Hc, Hv, Hw, Hval, Hn. simpl. rewrite Hsim. simpl.
    eexists. split; [reflexivity|].
    unfold SimulatedPLC.read_variable.
    rewrite write_variable_tags', lookup_insert_eq. reflexivity.
Qed.

Opaque write_tag.

(** ** The simulation flag *)

(** X9: Once [is_simulated] is set, no operation clears it: it stays set
    through every later [disconnect] and [connect], real sessions
    included. *)
Theorem is_simulated_is_never_cleared (c : CIPClient) (op : Op) :
  is_simulated (_state c) = true -> is_simulated (_state (exec c op)) = true.
Proof.
  intros Hf.
  destruct op;
    try (match goal with |- is_simulated (_state (exec c ?o)) = _ =>
           destruct (exec_step o c ltac:(intros cfg0; discriminate) ltac:(discriminate))
             as (E & _); rewrite E; exact Hf end).
  - cbn [exec]. rewrite connect_closed_form. cbn [snd].
    destruct (is_connected (_state c)); [exact Hf|].
    unfold_methods.
    destruct (cip_simulated cfg); simpl;
      [destruct (_heartbeat_timer c); reflexivity|].
    destruct (connect_explicit driver _ _ _); simpl;
      destruct (_heartbeat_timer c); simpl; auto.
  - cbn [exec]. destruct (disconnect_result c) as (c' & -> & Hs & _).
    cbn [snd]. rewrite Hs. exact Hf.
Qed.

(** ** The signals of the composite write *)

Transparent write_tag.

Lemma write_tag_signals n v c :
  exists evs,
    trace (write_tag n v c).2 = trace c ++ evs
    /\ (forall n' v', EvEmit (tag_written n' v') ∈ evs ->
          n' = n /\ v' = v /\ write_returns (n, v) c = true)
    /\ (write_returns (n, v) c = true ->
        exists evs0, evs = evs0 ++ [EvEmit (tag_written n v)]).
Proof.
  unfold write_returns. simpl.
  unfold write_tag, lookup_plc_name, backend_write, _handle_error, _update_state.
  run_monad.
  destruct (is_connected (_state c)); simpl;
    [|exists []; rewrite app_nil_r; split_events].
  destruct (is_valid_tag tag_map n); simpl;
    [|exists []; rewrite app_nil_r; split_events].
  destruct (is_writable tag_map n); simpl;
    [|exists []; rewrite app_nil_r; split_events].
  destruct (validate_value tag_map n v); simpl;
    [|exists []; rewrite app_nil_r; split_events].
  destruct (get_plc_name tag_map n) as [p|]; simpl;
    [|exists []; rewrite app_nil_r; split_events].
  destruct (_simulated_plc c); simpl.
  { eexists. rewrite <- !app_assoc. split; [reflexivity|].
    split; [event_mem|].
    intros _. exists [EvSimWrite p v; EvLogWrite p v true None;
                      EvMetricRecord "cip_response_time"]. reflexivity. }
  destruct (_plc c); simpl;
    [destruct (plc_write_variable driver (trace c) p v); simpl|].
  - repeat match goal with
    | |- context [if ?x then _ else _] => destruct x; simpl
    end; eexists; rewrite <- !app_assoc; split_events.
  - eexists. rewrite <- !app_assoc. split; [reflexivity|].
    split; [event_mem|].
    intros _. exists [EvPlcWrite p v; EvLogWrite p v true None;
                      EvMetricRecord "cip_response_time"]. reflexivity.
  - repeat match goal with
    | |- context [if ?x then _ else _] => destruct x; simpl
    end; eexists; rewrite <- !app_assoc; split_events.
Qed.

Opaque write_tag.

Lemma after_writes_app ws1 ws2 c :
  after_writes (ws1 ++ ws2) c = after_writes ws2 (after_writes ws1 c).
Proof. unfold after_writes. apply foldl_app. Qed.

Lemma after_writes_signals ws : forall c,
  exists evs,
    trace (after_writes ws c) = trace c ++ evs
    /\ (forall n v, EvEmit (tag_written n v) ∈ evs ->
          exists j, ws !! j = Some (n, v)
                    /\ write_returns (n, v) (after_writes (take j ws) c) = true).
Proof.
  induction ws as [|[n0 v0] ws IH] using rev_ind; intros c.
  - exists []. rewrite app_nil_r. split; [reflexivity|].
    intros n v H. apply elem_of_nil in H. destruct H.
  - rewrite after_writes_app.
    destruct (IH c) as (evs1 & Ht1 & Hs1).
    destruct (write_tag_signals n0 v0 (after_writes ws c)) as (evs2 & Ht2 & Hs2 & _).
    exists (evs1 ++ evs2). split.
    + change (after_writes [(n0, v0)] (after_writes ws c))
        with (write_tag n0 v0 (after_writes ws c)).2.
      rewrite Ht2, Ht1, app_assoc. reflexivity.
    + intros n v Hin. apply elem_of_app in Hin as [Hin|Hin].
      * destruct (Hs1 n v Hin) as (j & Hj & Hret).
        exists j. pose proof (lookup_lt_Some _ _ _ Hj) as Hlt.
        split; [rewrite lookup_app_l; assumption|].
        rewrite take_app_le by lia. exact Hret.
      * destruct (Hs2 n v Hin) as (-> & -> & Hret).
        exists (length ws). split.
        -- rewrite lookup_app_r by lia. rewrite Nat.sub_diag. reflexivity.
        -- rewrite take_app_le by lia. rewrite firstn_all. exact Hret.
Qed.

(** X15: The data-sent acknowledgement is signalled only by a complete write:
    when [write_detection_result] returns [True], the last event of the call
    is the [tag_written] signal of ["VisionDataSent"]; when it returns
    [False], no [tag_written] signal for ["VisionDataSent"] was emitted. *)
Theorem data_sent_signalled_iff_success
    (detected centroid_x centroid_y confidence detection_count processing_time : PyValue)
    (c : CIPClient) :
  let call := write_detection_result detected centroid_x centroid_y confidence
                detection_count processing_time c in
  exists evs,
    trace call.2 = trace c ++ evs
    /\ (call.1 = Return true ->
        exists evs0,
          evs = evs0 ++ [EvEmit (tag_written "VisionDataSent" (PyBool true))])
    /\ (call.1 = Return false ->
        forall v, EvEmit (tag_written "VisionDataSent" v) ∉ evs).
Proof.
  intros call. subst call. rewrite write_detection_result_run.
  set (ws := detection_writes detected centroid_x centroid_y confidence
               detection_count processing_time).
  destruct (first_failure ws c) as [k|] eqn:Hff; cbn [fst snd].
  - destruct (after_writes_signals (take (S k) ws) c) as (evs & Ht & Hs).
    exists evs. split; [exact Ht|]. split; [discriminate|].
    intros _ v Hin. destruct (Hs _ _ Hin) as (j & Hj & Hret).
    apply first_failure_Some in Hff as [(w & Hw & Hfail) Hbefore].
    pose proof (lookup_lt_Some _ _ _ Hw) as Hk.
    pose proof (lookup_lt_Some _ _ _ Hj) as Hjlt.
    rewrite length_take in Hjlt.
    rewrite lookup_take_lt in Hj by lia.
    rewrite take_take in Hret.
    replace (j `min` S k)%nat with j in Hret by lia.
    destruct (decide (j = k)) as [->|Hne].
    + rewrite Hw in Hj. injection Hj as ->. congruence.
    + assert (j < 6)%nat by (simpl in Hk; lia).
      do 6 (destruct j as [|j]; [discriminate|]). lia.
  - assert (Hws : ws = take 6 ws ++ [("VisionDataSent", PyBool true)])
      by reflexivity.
    destruct (after_writes_signals (take 6 ws) c) as (evs1 & Ht1 & _).
    destruct (write_tag_signals "VisionDataSent" (PyBool true)
                (after_writes (take 6 ws) c)) as (evs2 & Ht2 & _ & Hlast).
    exists (evs1 ++ evs2). split.
    + rewrite Hws at 1. rewrite after_writes_app.
      change (after_writes [("VisionDataSent", PyBool true)]
                (after_writes (take 6 ws) c))
        with (write_tag "VisionDataSent" (PyBool true)
                (after_writes (take 6 ws) c)).2.
      rewrite Ht2, Ht1, app_assoc. reflexivity.
    + split; [|discriminate]. intros _.
      destruct Hlast as (evs0 & ->).
      { apply (proj1 (first_failure_None ws c) Hff 6%nat). reflexivity. }
      exists (evs1 ++ evs0). rewrite app_assoc. reflexivity.
Qed.

(** ** The signals of connect *)

(** X2: A [connect] that is not a no-op first announces CONNECTING, and ends
    by emitting [connected]; the last signal before [connected] is the
    [state_changed] that carries the final connection state, so an observer
    is told the state before it is told of the connection. *)
Theorem connect_signals_in_order (cfg : Settings) (c : CIPClient) :
  is_connected (_state c) = false ->
  let c' := (connect cfg c).2 in
  exists s1 mid tail,
    trace c'
    = trace c ++ EvEmit (state_changed s1) :: mid
        ++ EvEmit (state_changed (_state c')) :: tail ++ [EvEmit connected]
    /\ status s1 = CONNECTING
    /\ (forall s, EvEmit s ∉ tail)
    /\ (forall s, EvEmit s ∉ mid).
Proof.
  intros Hn c'. subst c'. rewrite connect_closed_form, Hn. cbn [snd].
  unfold_methods.
  destruct (cip_simulated cfg) eqn:Hsim; simpl.
  - eexists _, [], [].
    destruct (_heartbeat_timer c); simpl; rewrite <- ?app_assoc; simpl;
      (split; [reflexivity|]); (split; [reflexivity|]);
      split; intros s H; apply elem_of_nil in H; destruct H.
  - destruct (connect_explicit driver _ _ _) eqn:Hdial; simpl.
    + eexists _,
        [EvConnectExplicit (cip_ip cfg) (timeout_arg (cip_connection_timeout cfg))],
        [EvLogConnect (cip_ip cfg) true None].
      destruct (_heartbeat_timer c); simpl; rewrite <- ?app_assoc; simpl;
        (split; [reflexivity|]); (split; [reflexivity|]);
        split; intros s H; event_mem.
    + eexists _, [EvLogConnect (cip_ip cfg) false _], [].
      destruct (_heartbeat_timer c); simpl; rewrite <- ?app_assoc; simpl;
        (split; [reflexivity|]); (split; [reflexivity|]);
        split; intros s H; event_mem.
    + eexists _,
        [EvConnectExplicit (cip_ip cfg) (timeout_arg (cip_connection_timeout cfg));
         EvLogConnect (cip_ip cfg) false _], [].
      destruct (_heartbeat_timer c); simpl; rewrite <- ?app_assoc; simpl;
        (split; [reflexivity|]); (split; [reflexivity|]);
        split; intros s H; event_mem.
Qed.

(** ** The reload test *)

Lemma connect_reloads_address cfg c :
  is_connected (_state c) = false ->
  _ip (connect cfg c).2 = cip_ip cfg
  /\ _port (connect cfg c).2 = cip_port cfg
  /\ ip (_state (connect cfg c).2) = cip_ip cfg
  /\ port (_state (connect cfg c).2) = cip_port cfg.
Proof.
  intros Hn. rewrite connect_closed_form, Hn. cbn [snd]. unfold_methods.
  destruct (cip_simulated cfg); simpl;
    [destruct (_heartbeat_timer c); simpl; auto|].
  destruct (connect_explicit driver _ _ _); simpl;
    destruct (_heartbeat_timer c); simpl; auto.
Qed.

(** X20: The reload test passes on every configuration and against every
    device: none of its four assertions can fail, whether the session opens
    or the client falls back to simulation. *)
Theorem reload_test_always_passes (cfg : Settings) :
  test_reload_on_connect cfg = Return true.
Proof.
  unfold test_reload_on_connect.
  destruct (disconnect_result (__init__ cfg)) as (c1 & -> & Hs & _). cbn [snd].
  set (c2 := set_memory_address "192.168.1.99" 9999 c1).
  assert (Hn : is_connected (_state c2) = false).
  { unfold is_connected. simpl. rewrite Hs. reflexivity. }
  destruct (connect_reloads_address cfg c2 Hn) as (E1 & E2 & E3 & E4).
  rewrite E1, E2, E3, E4, String.eqb_refl, Z.eqb_refl. reflexivity.
Qed.


(** ** The simulated robot seen through the client *)

Lemma ack_cycle_registers (plc : SimulatedPLC.t) (v : PyValue) :
  SimulatedPLC.timers plc = [] -> truthy v = true ->
  let p1 := SimulatedPLC.write_variable plc "PRODUCT_DETECTED" v in
  let p2 := SimulatedPLC.fire 0 p1 in
  let p3 := SimulatedPLC.fire 0 p2 in
  SimulatedPLC.timers p1 = [(SimulatedPLC._ack_delay plc, SimulatedPLC.AutoAck)]
  /\ SimulatedPLC.read_variable p1 "ROBOT_ACK"
     = SimulatedPLC.read_variable plc "ROBOT_ACK"
  /\ SimulatedPLC.read_variable p2 "ROBOT_ACK" = PyBool true
  /\ SimulatedPLC.timers p2 = [(1.0%float, SimulatedPLC.ResetAck)]
  /\ SimulatedPLC.read_variable p3 "ROBOT_ACK" = PyBool false
  /\ SimulatedPLC.timers p3 = []
  /\ SimulatedPLC.read_variable p3 "PRODUCT_DETECTED" = v.
Proof.
  intros Ht Hv p1 p2 p3. subst p3 p2 p1.
  unfold SimulatedPLC.write_variable. simpl. rewrite Hv, Ht. simpl.
  unfold SimulatedPLC.fire, SimulatedPLC.read_variable. simpl.
  repeat split.
  - rewrite lookup_insert_ne by discriminate. reflexivity.
  - rewrite lookup_insert_eq. reflexivity.
  - rewrite lookup_insert_eq. reflexivity.
  - rewrite !lookup_insert_ne by discriminate. rewrite lookup_insert_eq. reflexivity.
Qed.

Transparent write_tag.

Lemma read_tag_simulated_value c sim n p :
  on_simulated_device c sim -> accepted_read n p ->
  (read_tag n c).1 = Return (SimulatedPLC.read_variable sim p).
Proof.
  intros (Hc & Hsim) (Hv & Hr & Hn).
  unfold read_tag, lookup_plc_name, backend_read. run_monad.
  rewrite Hc, Hv, Hr, Hn. simpl. rewrite Hsim. reflexivity.
Qed.

Lemma write_tag_simulated_device c sim n p v :
  on_simulated_device c sim -> accepted_write n v p ->
  on_simulated_device (write_tag n v c).2 (SimulatedPLC.write_variable sim p v).
Proof.
  intros (Hc & Hsim) (Hv & Hw & Hval & Hn).
  unfold on_simulated_device, write_tag, lookup_plc_name, backend_write. run_monad.
  rewrite Hc, Hv, Hw, Hval, Hn. simpl. rewrite Hsim. simpl. auto.
Qed.

Opaque write_tag.

Lemma sim_timer_simulated_device c sim i :
  on_simulated_device c sim ->
  on_simulated_device (sim_timer i c) (SimulatedPLC.fire i sim).
Proof.
  intros (Hc & Hsim). unfold on_simulated_device, sim_timer.
  rewrite Hsim. simpl. auto.
Qed.

(** X16: The robot acknowledgement as the client sees it in simulation, with
    the detection flag and the acknowledgement mapped to their registers:
    after a truthy detection is written, [read_robot_ack] still returns the
    old register value; once the acknowledge timer has fired it returns
    [True], and once the reset timer has fired it returns [False]. *)
Theorem simulated_robot_acknowledges
    (c : CIPClient) (sim : SimulatedPLC.t) (v : PyValue) :
  on_simulated_device c sim ->
  SimulatedPLC.timers sim = [] ->
  truthy v = true ->
  accepted_write "ProductDetected" v "PRODUCT_DETECTED" ->
  accepted_read "RobotAck" "ROBOT_ACK" ->
  let c1 := (write_tag "ProductDetected" v c).2 in
  (read_robot_ack c1).1 = Return (SimulatedPLC.read_variable sim "ROBOT_ACK")
  /\ (read_robot_ack (sim_timer 0 c1)).1 = Return (PyBool true)
  /\ (read_robot_ack (sim_timer 0 (sim_timer 0 c1))).1 = Return (PyBool false).
Proof.
  intros Hs Ht Hv Hw Hr c1. subst c1.
  pose proof (write_tag_simulated_device c sim _ _ v Hs Hw) as H1.
  pose proof (sim_timer_simulated_device _ _ 0%nat H1) as H2.
  pose proof (sim_timer_simulated_device _ _ 0%nat H2) as H3.
  destruct (ack_cycle_registers sim v Ht Hv) as (_ & E1 & E2 & _ & E3 & _).
  unfold read_robot_ack.
  rewrite (read_tag_simulated_value _ _ _ _ H1 Hr),
    (read_tag_simulated_value _ _ _ _ H2 Hr),
    (read_tag_simulated_value _ _ _ _ H3 Hr).
  rewrite E1, E2, E3. auto.
Qed.

Transparent write_tag.

(** ** The ends of connect *)

Lemma enter_simulated_device c :
  let c' := enter_simulated c in
  status (_state c') = SIMULATED
  /\ is_simulated (_state c') = true
  /\ _simulated_plc c' = Some SimulatedPLC.init
  /\ _plc c' = _plc c
  /\ is_Some (_heartbeat_timer c')
  /\ trace c'
     = trace c ++ [EvEmit (state_changed (_state c')); EvEmit connected].
Proof.
  unfold enter_simulated, _update_state, _start_heartbeat. simpl.
  destruct (_heartbeat_timer c) eqn:Hh; simpl; rewrite ?Hh, <- ?app_assoc; simpl;
    repeat split; eauto.
Qed.

Lemma enter_connected_session c :
  let c' := enter_connected c in
  status (_state c') = CONNECTED
  /\ is_simulated (_state c') = is_simulated (_state c)
  /\ _simulated_plc c' = _simulated_plc c
  /\ _plc c' = Some {| session_ip := _ip c |}
  /\ is_Some (_heartbeat_timer c')
  /\ trace c'
     = trace c ++ [EvEmit (state_changed (_state c'));
                   EvLogConnect (_ip c) true None; EvEmit connected].
Proof.
  unfold enter_connected, _update_state, _start_heartbeat. simpl.
  destruct (_heartbeat_timer c) eqn:Hh; simpl; rewrite ?Hh, <- ?app_assoc; simpl;
    repeat split; eauto.
Qed.

(** C1: from DISCONNECTED, [connect] returns [True] whatever the session
    open does, and never raises.  When simulation is not forced and the
    session opens, the client ends CONNECTED on that session, with no
    simulated device and the simulation flag as it was.  In every other
    case (simulation forced, driver missing, open refused or timed out) it
    ends SIMULATED with the flag set and a fresh simulated device in place
    of a session, and an accepted read is answered by that device.  Either
    way the heartbeat timer runs, [connected] is the last thing signalled,
    and no [connection_error] is signalled: the caller sees the failure
    only in the state. *)
Theorem C1_connect_ends_connected_or_simulated (cfg : Settings) (c : CIPClient) :
  status (_state c) = DISCONNECTED ->
  exists c' evs,
    connect cfg c = (Return true, c')
    /\ (status (_state c') = CONNECTED \/ status (_state c') = SIMULATED)
    /\ is_Some (_heartbeat_timer c')
    /\ trace c' = trace c ++ evs ++ [EvEmit connected]
    /\ (forall e, EvEmit (connection_error e) ∉ evs)
    /\ match cip_simulated cfg,
             connect_explicit driver
               (trace (_update_state CONNECTING (_reload_connection_config cfg c)))
               (cip_ip cfg) (timeout_arg (cip_connection_timeout cfg)) with
       | false, DialOk =>
           status (_state c') = CONNECTED
           /\ is_simulated (_state c') = is_simulated (_state c)
           /\ _plc c' = Some {| session_ip := cip_ip cfg |}
           /\ _simulated_plc c' = _simulated_plc c
       | _, _ =>
           status (_state c') = SIMULATED
           /\ is_simulated (_state c') = true
           /\ _simulated_plc c' = Some SimulatedPLC.init
           /\ _plc c' = _plc c
           /\ (forall n p, accepted_read n p ->
                 (read_tag n c').1
                 = Return (SimulatedPLC.read_variable SimulatedPLC.init p))
       end.
Proof.
  intros Hd. rewrite connect_closed_form.
  assert (Hn : is_connected (_state c) = false)
    by (unfold is_connected; rewrite Hd; reflexivity).
  rewrite Hn. unfold connect_outcome.
  set (c1 := _update_state CONNECTING (_reload_connection_config cfg c)).
  assert (Ht1 : trace c1 = trace c ++ [EvEmit (state_changed (_state c1))])
    by reflexivity.
  assert (Hp1 : _plc c1 = _plc c) by reflexivity.
  assert (Hs1 : _simulated_plc c1 = _simulated_plc c) by reflexivity.
  assert (Hf1 : is_simulated (_state c1) = is_simulated (_state c)) by reflexivity.
  assert (Hi1 : _ip c1 = cip_ip cfg) by reflexivity.
  assert (Hsim : forall c0 evs0,
            trace c0 = trace c ++ evs0 ->
            _plc c0 = _plc c ->
            (forall e, EvEmit (connection_error e) ∉ evs0) ->
            let c' := enter_simulated c0 in
            (status (_state c') = CONNECTED \/ status (_state c') = SIMULATED)
            /\ is_Some (_heartbeat_timer c')
            /\ trace c' = trace c ++ (evs0 ++ [EvEmit (state_changed (_state c'))])
                            ++ [EvEmit connected]
            /\ (forall e, EvEmit (connection_error e)
                            ∉ evs0 ++ [EvEmit (state_changed (_state c'))])
            /\ status (_state c') = SIMULATED
            /\ is_simulated (_state c') = true
            /\ _simulated_plc c' = Some SimulatedPLC.init
            /\ _plc c' = _plc c
            /\ (forall n p, accepted_read n p ->
                  (read_tag n c').1
                  = Return (SimulatedPLC.read_variable SimulatedPLC.init p))).
  { intros c0 evs0 Ht0 Hp0 Hno c'.
    destruct (enter_simulated_device c0) as (Hst & Hfl & Hdev & Hplc & Hhb & Htr).
    fold c' in Hst, Hfl, Hdev, Hplc, Hhb, Htr.
    split; [right; exact Hst|]. split; [exact Hhb|].
    split; [rewrite Htr, Ht0, <- !app_assoc; reflexivity|].
    split.
    { intros e He. apply elem_of_app in He. destruct He as [He|He].
      - exact (Hno e He).
      - apply list_elem_of_singleton in He. discriminate. }
    split; [exact Hst|]. split; [exact Hfl|]. split; [exact Hdev|].
    split; [congruence|].
    intros n p Hacc. apply read_tag_simulated_value; [|exact Hacc].
    split; [unfold is_connected; rewrite Hst; reflexivity|exact Hdev]. }
  destruct (cip_simulated cfg) eqn:Hforce.
  - destruct (Hsim c1 [EvEmit (state_changed (_state c1))] Ht1 Hp1)
      as (H1 & H2 & H3 & H4 & H5).
    { intros e He. apply list_elem_of_singleton in He. discriminate. }
    eexists _, _. split; [reflexivity|]. split; [exact H1|]. split; [exact H2|].
    split; [exact H3|]. split; [exact H4|]. exact H5.
  - destruct (connect_explicit driver (trace c1) (cip_ip cfg)
                (timeout_arg (cip_connection_timeout cfg))) eqn:Hdial.
    + set (dial := EvConnectExplicit (cip_ip cfg)
                     (timeout_arg (cip_connection_timeout cfg))).
      destruct (enter_connected_session (record_event dial c1))
        as (Hst & Hfl & Hdev & Hplc & Hhb & Htr).
      eexists _, ([EvEmit (state_changed (_state c1)); dial]
                    ++ [EvEmit (state_changed _); EvLogConnect (cip_ip cfg) true None]).
      split; [reflexivity|]. split; [left; exact Hst|]. split; [exact Hhb|].
      split.
      { rewrite Htr. cbn [record_event trace]. rewrite Ht1, <- !app_assoc.
        reflexivity. }
      split.
      { intros e He. subst dial. event_mem; discriminate. }
      split; [exact Hst|]. split; [exact Hfl|]. split; [exact Hplc|]. exact Hdev.
    + set (c2 := record_event _ c1).
      destruct (Hsim c2
                  [EvEmit (state_changed (_state c1));
                   EvLogConnect (cip_ip cfg) false
                     (Some "Biblioteca aphyt não instalada. Execute: pip install aphyt")])
        as (H1 & H2 & H3 & H4 & H5).
      { subst c2. cbn [record_event trace]. rewrite Ht1, <- app_assoc. reflexivity. }
      { reflexivity. }
      { intros e He. event_mem; discriminate. }
      eexists _, _. split; [reflexivity|]. split; [exact H1|]. split; [exact H2|].
      split; [exact H3|]. split; [exact H4|]. exact H5.
    + set (dial := EvConnectExplicit (cip_ip cfg)
                     (timeout_arg (cip_connection_timeout cfg))).
      set (c2 := record_event _ (record_event dial c1)).
      destruct (Hsim c2
                  [EvEmit (state_changed (_state c1)); dial;
                   EvLogConnect (cip_ip cfg) false
                     (Some ("Falha ao conectar ao CLP: " +:+ error))])
        as (H1 & H2 & H3 & H4 & H5).
      { subst c2. cbn [record_event trace]. rewrite Ht1, <- !app_assoc. reflexivity. }
      { reflexivity. }
      { intros e He. subst dial. event_mem; discriminate. }
      eexists _, _. split; [reflexivity|]. split; [exact H1|]. split; [exact H2|].
      split; [exact H3|]. split; [exact H4|]. exact H5.
Qed.

(** ** The worker pool under concurrent calls *)

(** The pool runs no more jobs than it has workers and keeps a job waiting
    only while every worker is busy; [submit] and [finish] keep it so. *)
Lemma submit_bounded (j : ThreadPool.Job) (p : ThreadPool.t) :
  (length (ThreadPool.running p) <= ThreadPool.max_workers p)%nat ->
  (ThreadPool.queue p <> [] ->
   length (ThreadPool.running p) = ThreadPool.max_workers p) ->
  ThreadPool.max_workers (ThreadPool.submit j p) = ThreadPool.max_workers p
  /\ (length (ThreadPool.running (ThreadPool.submit j p))
      <= ThreadPool.max_workers p)%nat
  /\ (ThreadPool.queue (ThreadPool.submit j p) <> [] ->
      length (ThreadPool.running (ThreadPool.submit j p)) = ThreadPool.max_workers p).
Proof.
  intros Hle Hq. unfold ThreadPool.submit.
  destruct (Nat.ltb_spec (length (ThreadPool.running p)) (ThreadPool.max_workers p));
    simpl; rewrite ?length_app; simpl.
  - split; [reflexivity|]. split; [lia|]. intros Hne.
    specialize (Hq Hne). lia.
  - split; [reflexivity|]. split; [lia|]. intros _. lia.
Qed.

Lemma finish_bounded (i : nat) (p : ThreadPool.t) :
  (length (ThreadPool.running p) <= ThreadPool.max_workers p)%nat ->
  (ThreadPool.queue p <> [] ->
   length (ThreadPool.running p) = ThreadPool.max_workers p) ->
  ThreadPool.max_workers (ThreadPool.finish i p) = ThreadPool.max_workers p
  /\ (length (ThreadPool.running (ThreadPool.finish i p))
      <= ThreadPool.max_workers p)%nat
  /\ (ThreadPool.queue (ThreadPool.finish i p) <> [] ->
      length (ThreadPool.running (ThreadPool.finish i p)) = ThreadPool.max_workers p).
Proof.
  intros Hle Hq. unfold ThreadPool.finish.
  destruct (ThreadPool.running p !! i) as [j|] eqn:Hi; [|auto].
  apply lookup_lt_Some in Hi.
  destruct (ThreadPool.queue p) as [|j' q] eqn:Eq; simpl;
    rewrite ?length_app, length_take, length_drop; simpl.
  - split; [reflexivity|]. split; [lia|]. intros Hne. destruct (Hne eq_refl).
  - split; [reflexivity|]. split; [lia|]. intros _.
    specialize (Hq ltac:(discriminate)). lia.
Qed.

(** A step of the world submits to the pool, finishes a job of the pool or
    leaves the pool alone. *)
Lemma world_step_executor (w : World) (s : WorldStep) :
  executor (world_step w s) = executor w
  \/ (exists j, executor (world_step w s) = ThreadPool.submit j (executor w))
  \/ (exists i, executor (world_step w s) = ThreadPool.finish i (executor w)).
Proof.
  destruct s as [call|i]; cbn [world_step].
  - unfold start_call. destruct (call_job call (client w)) as [j|].
    + right. left. exists j. reflexivity.
    + left. reflexivity.
  - right. right. exists i. unfold complete_job, ThreadPool.finish.
    destruct (ThreadPool.running (executor w) !! i); reflexivity.
Qed.

Lemma run_world_bounded (steps : list WorldStep) (c : CIPClient) :
  let p := executor (run_world steps (idle_world c)) in
  ThreadPool.max_workers p = 2%nat
  /\ (length (ThreadPool.running p) <= 2)%nat
  /\ (ThreadPool.queue p <> [] -> length (ThreadPool.running p) = 2%nat).
Proof.
  unfold run_world. induction steps as [|s steps IH] using rev_ind.
  - simpl. split; [reflexivity|]. split; [lia|]. intros H; destruct (H eq_refl).
  - rewrite foldl_app. cbn [foldl].
    set (w := foldl world_step (idle_world c) steps) in *.
    cbv zeta in IH. destruct IH as (Hm & Hle & Hq).
    cbv zeta.
    destruct (world_step_executor w s) as [-> | [[j ->] | [i ->]]].
    + auto.
    + destruct (submit_bounded j (executor w)) as (Hm' & Hle' & Hq');
        [lia|rewrite Hm; exact Hq|].
      rewrite Hm in *. auto.
    + destruct (finish_bounded i (executor w)) as (Hm' & Hle' & Hq');
        [lia|rewrite Hm; exact Hq|].
      rewrite Hm in *. auto.
Qed.

(** A read hands a job to the pool exactly when [read_tag] gets as far as
    the session: the client is on a real session, the tag is accepted, and
    the rest of the method is what runs when the job has ended. *)
Lemma call_job_read (n : string) (c : CIPClient) (j : ThreadPool.Job) :
  call_job (CallRead n) c = Some j ->
  exists p, j = ThreadPool.JRead n p
            /\ accepted_read n p
            /\ on_real_session c
            /\ read_tag n c = read_tag_resume n p c.
Proof.
  unfold call_job, read_tag, read_tag_resume, lookup_plc_name, backend_read,
    driver_read, accepted_read, on_real_session.
  unfold mbind, mret, M_bind, M_ret, modify, gets, raise, try_except, emit, log.
  cbn beta.
  destruct (is_connected (_state c)) eqn:Hc; cbn [negb]; [|discriminate].
  destruct (is_valid_tag tag_map n) eqn:Hv; cbn [negb]; [|discriminate].
  destruct (is_readable tag_map n) eqn:Hr; cbn [negb]; [|discriminate].
  destruct (get_plc_name tag_map n) as [p|] eqn:Hn; [|discriminate].
  destruct (_simulated_plc c) eqn:Hs; [discriminate|].
  destruct (_plc c) eqn:Hp; [|discriminate].
  intros [= <-]. exists p. repeat split; eauto.
Qed.

Lemma call_job_write (n : string) (v : PyValue) (c : CIPClient) (j : ThreadPool.Job) :
  call_job (CallWrite n v) c = Some j ->
  exists p, j = ThreadPool.JWrite n p v
            /\ accepted_write n v p
            /\ on_real_session c
            /\ write_tag n v c = write_tag_resume n p v c.
Proof.
  unfold call_job, write_tag, write_tag_resume, lookup_plc_name, backend_write,
    driver_write, accepted_write, on_real_session.
  unfold mbind, mret, M_bind, M_ret, modify, gets, raise, try_except, emit, log.
  cbn beta.
  destruct (is_connected (_state c)) eqn:Hc; cbn [negb]; [|discriminate].
  destruct (is_valid_tag tag_map n) eqn:Hv; cbn [negb]; [|discriminate].
  destruct (is_writable tag_map n) eqn:Hw; cbn [negb]; [|discriminate].
  destruct (validate_value tag_map n v) eqn:Hval; cbn [negb]; [|discriminate].
  destruct (get_plc_name tag_map n) as [p|] eqn:Hn; [|discriminate].
  destruct (_simulated_plc c) eqn:Hs; [discriminate|].
  destruct (_plc c) eqn:Hp; [|discriminate].
  intros [= <-]. exists p. repeat split; eauto.
Qed.

(** Resuming the job of a call does to the client what the call does when
    nothing runs in between. *)
Lemma call_job_resume (call : Call) (c : CIPClient) (j : ThreadPool.Job) :
  call_job call c = Some j -> resume_job j c = call_effect call c.
Proof.
  destruct call as [n|n v]; intros H.
  - destruct (call_job_read n c j H) as (p & -> & _ & _ & E).
    cbn [resume_job call_effect]. rewrite E. reflexivity.
  - destruct (call_job_write n v c j H) as (p & -> & _ & _ & E).
    cbn [resume_job call_effect]. rewrite E. reflexivity.
Qed.

(** On a real session an accepted call hands its job to the pool. *)
Lemma call_job_real (call : Call) (c : CIPClient) (j : ThreadPool.Job) :
  on_real_session c -> accepted_call call j -> call_job call c = Some j.
Proof.
  intros (Hc & Hs & [s Hp]). unfold call_job. rewrite Hc. cbn [negb].
  destruct call as [n|n v]; cbn [accepted_call].
  - intros (p & (Hv & Hr & Hn) & ->). rewrite Hv, Hr, Hn, Hs, Hp. reflexivity.
  - intros (p & (Hv & Hw & Hval & Hn) & ->).
    rewrite Hv, Hw, Hval, Hn, Hs, Hp. reflexivity.
Qed.

(** On the simulated device no call reaches the pool. *)
Lemma call_job_simulated (call : Call) (c : CIPClient) (sim : SimulatedPLC.t) :
  on_simulated_device c sim -> call_job call c = None.
Proof.
  intros (Hc & Hs). unfold call_job. rewrite Hc, Hs. cbn [negb].
  destruct call as [n|n v].
  - destruct (is_valid_tag tag_map n); cbn [negb]; [|reflexivity].
    destruct (is_readable tag_map n); cbn [negb]; [|reflexivity].
    destruct (get_plc_name tag_map n); reflexivity.
  - destruct (is_valid_tag tag_map n); cbn [negb]; [|reflexivity].
    destruct (is_writable tag_map n); cbn [negb]; [|reflexivity].
    destruct (validate_value tag_map n v); cbn [negb]; [|reflexivity].
    destruct (get_plc_name tag_map n); reflexivity.
Qed.

Lemma start_call_dispatched (call : Call) (w : World) (j : ThreadPool.Job) :
  call_job call (client w) = Some j ->
  start_call call w
  = {| client := client w; executor := ThreadPool.submit j (executor w) |}.
Proof. intros H. unfold start_call. rewrite H. reflexivity. Qed.

Lemma start_call_inline (call : Call) (w : World) :
  call_job call (client w) = None ->
  start_call call w
  = {| client := call_effect call (client w); executor := executor w |}.
Proof. intros H. unfold start_call. rewrite H. reflexivity. Qed.

(** A call started on an idle pool and followed to its end is the call of
    the sequential client. *)
Lemma call_alone (call : Call) (c : CIPClient) :
  run_world [StartCall call; CompleteJob 0] (idle_world c)
  = idle_world (call_effect call c).
Proof.
  unfold run_world. cbn [foldl world_step].
  destruct (call_job call c) as [j|] eqn:Hj.
  - rewrite (start_call_dispatched call (idle_world c) j Hj).
    unfold complete_job, idle_world. cbn.
    rewrite (call_job_resume call c j Hj). reflexivity.
  - rewrite (start_call_inline call (idle_world c) Hj). reflexivity.
Qed.

(** C7: the calls of a client on a real session go through its pool of two
    workers and nothing else holds them back.  A call run alone through the
    pool is [read_tag] or [write_tag] as the sequential client runs it.
    However calls are started and jobs end, at most two jobs are in flight,
    and a job waits only while two are.  Two accepted calls issued together
    are both in flight at once, before either has ended and with the client
    as it was; a third one waits, and is dispatched when one of the two
    ends, at which point the client is as the ended call leaves it; in
    general the oldest waiting job takes the place of whichever job ends.
    On the simulated device a call runs to its end where it is issued and
    the pool does not see it. *)
Theorem C7_at_most_two_in_flight
    (c : CIPClient) (call1 call2 call3 : Call) (j1 j2 j3 : ThreadPool.Job) :
  on_real_session c ->
  accepted_call call1 j1 ->
  accepted_call call2 j2 ->
  accepted_call call3 j3 ->
  (forall call,
     run_world [StartCall call; CompleteJob 0] (idle_world c)
     = idle_world (call_effect call c))
  /\ (forall steps,
        let p := executor (run_world steps (idle_world c)) in
        (ThreadPool.in_flight p <= 2)%nat
        /\ (ThreadPool.queue p <> [] -> ThreadPool.in_flight p = 2%nat))
  /\ run_world [StartCall call1; StartCall call2] (idle_world c)
     = {| client := c;
          executor := {| ThreadPool.max_workers := 2;
                         ThreadPool.running := [j1; j2];
                         ThreadPool.queue := [] |} |}
  /\ run_world [StartCall call1; StartCall call2; StartCall call3] (idle_world c)
     = {| client := c;
          executor := {| ThreadPool.max_workers := 2;
                         ThreadPool.running := [j1; j2];
                         ThreadPool.queue := [j3] |} |}
  /\ run_world [StartCall call1; StartCall call2; StartCall call3; CompleteJob 0]
       (idle_world c)
     = {| client := call_effect call1 c;
          executor := {| ThreadPool.max_workers := 2;
                         ThreadPool.running := [j2; j3];
                         ThreadPool.queue := [] |} |}
  /\ run_world [StartCall call1; StartCall call2; StartCall call3; CompleteJob 1]
       (idle_world c)
     = {| client := call_effect call2 c;
          executor := {| ThreadPool.max_workers := 2;
                         ThreadPool.running := [j1; j3];
                         ThreadPool.queue := [] |} |}
  /\ (forall steps i j j' q,
        let w := run_world steps (idle_world c) in
        ThreadPool.running (executor w) !! i = Some j ->
        ThreadPool.queue (executor w) = j' :: q ->
        complete_job i w
        = {| client := resume_job j (client w);
             executor := {| ThreadPool.max_workers := 2;
                            ThreadPool.running :=
                              take i (ThreadPool.running (executor w))
                              ++ drop (S i) (ThreadPool.running (executor w))
                              ++ [j'];
                            ThreadPool.queue := q |} |})
  /\ (forall (w : World) (sim : SimulatedPLC.t) (call : Call),
        on_simulated_device (client w) sim ->
        start_call call w
        = {| client := call_effect call (client w); executor := executor w |}).
Proof.
  intros Hreal A1 A2 A3.
  pose proof (call_job_real call1 c j1 Hreal A1) as J1.
  pose proof (call_job_real call2 c j2 Hreal A2) as J2.
  pose proof (call_job_real call3 c j3 Hreal A3) as J3.
  assert (E2 : run_world [StartCall call1; StartCall call2] (idle_world c)
               = {| client := c;
                    executor := {| ThreadPool.max_workers := 2;
                                   ThreadPool.running := [j1; j2];
                                   ThreadPool.queue := [] |} |}).
  { unfold run_world. cbn [foldl world_step].
    rewrite (start_call_dispatched call1 (idle_world c) j1 J1).
    rewrite (start_call_dispatched call2 _ j2) by exact J2. reflexivity. }
  assert (E3 : run_world [StartCall call1; StartCall call2; StartCall call3]
                 (idle_world c)
               = {| client := c;
                    executor := {| ThreadPool.max_workers := 2;
                                   ThreadPool.running := [j1; j2];
                                   ThreadPool.queue := [j3] |} |}).
  { change [StartCall call1; StartCall call2; StartCall call3]
      with ([StartCall call1; StartCall call2] ++ [StartCall call3]).
    unfold run_world in *. rewrite foldl_app, E2. cbn [foldl world_step].
    rewrite (start_call_dispatched call3 _ j3) by exact J3. reflexivity. }
  split; [exact (fun call => call_alone call c)|].
  split.
  { intros steps. destruct (run_world_bounded steps c) as (_ & Hle & Hq).
    exact (conj Hle Hq). }
  split; [exact E2|]. split; [exact E3|].
  split.
  { change [StartCall call1; StartCall call2; StartCall call3; CompleteJob 0]
      with ([StartCall call1; StartCall call2; StartCall call3] ++ [CompleteJob 0]).
    unfold run_world in *. rewrite foldl_app, E3. cbn [foldl world_step].
    unfold complete_job. cbn.
    rewrite (call_job_resume call1 c j1 J1). reflexivity. }
  split.
  { change [StartCall call1; StartCall call2; StartCall call3; CompleteJob 1]
      with ([StartCall call1; StartCall call2; StartCall call3] ++ [CompleteJob 1]).
    unfold run_world in *. rewrite foldl_app, E3. cbn [foldl world_step].
    unfold complete_job. cbn.
    rewrite (call_job_resume call2 c j2 J2). reflexivity. }
  split.
  { intros steps i j j' q w Hi Hq.
    destruct (run_world_bounded steps c) as (Hm & _ & _). fold w in Hm.
    unfold complete_job, ThreadPool.finish. rewrite Hi, Hq, Hm, <- app_assoc.
    reflexivity. }
  intros w sim call Hsim.
  apply start_call_inline, (call_job_simulated call (client w) sim Hsim).
Qed.

End Client.

(** ** The simulated device *)

Lemma write_variable_tags plc name v :
  SimulatedPLC._tags (SimulatedPLC.write_variable plc name v)
  = <[name := v]> (SimulatedPLC._tags plc).
Proof.
  unfold SimulatedPLC.write_variable.
  destruct (String.eqb name "PRODUCT_DETECTED" && truthy v); reflexivity.
Qed.

(** C8: [read_variable] returns a value for every physical name: the
    stored one when the name is a key of the register store, the integer 0
    when it is not. *)
Theorem C8_read_variable_total (plc : SimulatedPLC.t) (name : string) :
  exists v,
    SimulatedPLC.read_variable plc name = v
    /\ match SimulatedPLC._tags plc !! name with
       | Some stored => v = stored
       | None => v = PyInt 0
       end.
Proof.
  unfold SimulatedPLC.read_variable.
  destruct (SimulatedPLC._tags plc !! name) as [w|]; simpl; eauto.
Qed.

(** C9: a value written to a register of the simulated device is what the
    next read of that register returns, for every register and so for every
    boolean tag of the pre-seeded store, and for every value. *)
Theorem C9_write_read_roundtrip (plc : SimulatedPLC.t) (name : string) (v : PyValue) :
  SimulatedPLC.read_variable (SimulatedPLC.write_variable plc name v) name = v.
Proof.
  unfold SimulatedPLC.read_variable.
  rewrite write_variable_tags, lookup_insert_eq. reflexivity.
Qed.

(** ** The theorems at concrete clients *)

(** C1 at a client whose device does not answer: the call succeeds, the
    client holds a fresh simulated device and no session, and a read of the
    robot acknowledgement is answered by that device. *)
Lemma C1_witness_unreachable_device :
  status (_state (__init__ cfg_real)) = DISCONNECTED
  /\ exists c',
       connect driver_unreachable test_now cfg_real (__init__ cfg_real)
         = (Return true, c')
       /\ status (_state c') = SIMULATED
       /\ is_simulated (_state c') = true
       /\ _simulated_plc c' = Some SimulatedPLC.init
       /\ _plc c' = None
       /\ is_Some (_heartbeat_timer c')
       /\ (read_tag test_tag_map driver_unreachable "RobotAck" c').1
          = Return (PyBool false).
Proof.
  split; [reflexivity|].
  destruct (C1_connect_ends_connected_or_simulated
              test_tag_map driver_unreachable test_now cfg_real
              (__init__ cfg_real) eq_refl)
    as (c' & evs & Hc & _ & Hhb & _ & _ & Hm).
  hnf in Hm. destruct Hm as (Hst & Hfl & Hdev & Hplc & Hread).
  exists c'. split; [exact Hc|]. split; [exact Hst|]. split; [exact Hfl|].
  split; [exact Hdev|]. split; [exact Hplc|]. split; [exact Hhb|].
  apply (Hread "RobotAck" "ROBOT_ACK").
  repeat split; vm_compute; reflexivity.
Defined.

(** C6 on the client of the reload test, which holds an old address: the
    session is opened to the configured one. *)
Lemma C6_witness_stale_address :
  is_connected (_state stale_client) = false
  /\ _ip stale_client = "192.168.1.99"
  /\ exists r c' evs,
       connect driver_ok test_now cfg_real stale_client = (r, c')
       /\ trace c' = trace stale_client ++ evs
       /\ _ip c' = "10.0.0.5"
       /\ _port c' = 44818%Z
       /\ EvConnectExplicit "10.0.0.5" (Some 5.0%float) ∈ evs.
Proof.
  split; [reflexivity|]. split; [reflexivity|].
  destruct (C6_connect_dials_current_config driver_ok test_now cfg_real
              stale_client eq_refl)
    as (r & c' & evs & Hc & Ht & _ & Hip & Hport & _ & _ & _ & _ & _ & Hdial & _).
  exists r, c', evs. repeat split; try assumption.
  apply Hdial; [reflexivity|discriminate].
Defined.

(** C5 on a connected client: an unknown name and a write to a read-only
    tag are rejected with the client untouched. *)
Lemma C5_witness_unknown_tag :
  let c := (connect driver_ok test_now cfg_real (__init__ cfg_real)).2 in
  is_valid_tag test_tag_map "NoSuchTag" = false
  /\ read_tag test_tag_map driver_ok "NoSuchTag" c
     = (Raise (CIPTagError "TAG não permitido: NoSuchTag"), c)
  /\ write_tag test_tag_map driver_ok test_py_str "RobotAck" (PyBool true) c
     = (Raise (CIPTagError "TAG não pode ser escrito: RobotAck"), c).
Proof.
  intros c.
  pose proof (C5_validation_rejects_before_backend test_tag_map driver_ok
                test_py_str c "NoSuchTag" PyNone) as H1.
  pose proof (C5_validation_rejects_before_backend test_tag_map driver_ok
                test_py_str c "RobotAck" (PyBool true)) as H2.
  cbv zeta in H1, H2.
  destruct H1 as (Hr & _). destruct H2 as (_ & _ & _ & Hw & _).
  split; [vm_compute; reflexivity|].
  split; [apply Hr; vm_compute; reflexivity|].
  apply Hw; vm_compute; reflexivity.
Defined.

(** C5 as stated fails on a client that is not connected: the unknown name
    is answered by the connection guard's [CIPConnectionError], not by a
    [CIPTagError]. *)
Lemma C5_counterexample_not_connected :
  is_valid_tag test_tag_map "NoSuchTag" = false
  /\ read_tag test_tag_map driver_ok "NoSuchTag" (__init__ cfg_real)
     = (Raise (CIPConnectionError "Não conectado ao CLP"), __init__ cfg_real)
  /\ forall msg,
       (read_tag test_tag_map driver_ok "NoSuchTag" (__init__ cfg_real)).1
       <> Raise (CIPTagError msg).
Proof.
  split; [vm_compute; reflexivity|].
  split; [reflexivity|]. intros msg. simpl. discriminate.
Qed.

(** C4 with a device whose third [write_variable] fails: the call returns
    [False], stops after the third sub-write, and the device has seen
    exactly three writes. *)
Lemma C4_witness_third_write_fails :
  let c := (connect driver_third_write_fails test_now cfg_real (__init__ cfg_real)).2 in
  let ws := detection_writes (PyBool true) (PyFloat 1.5%float) (PyFloat 2.5%float)
              (PyFloat 0.75%float) (PyInt 1) (PyFloat 12.0%float) in
  write_detection_result test_tag_map driver_third_write_fails test_py_str
    (PyBool true) (PyFloat 1.5%float) (PyFloat 2.5%float)
    (PyFloat 0.75%float) (PyInt 1) (PyFloat 12.0%float) c
  = (Return false,
     after_writes test_tag_map driver_third_write_fails test_py_str (take 3 ws) c)
  /\ plc_writes
       (trace (after_writes test_tag_map driver_third_write_fails test_py_str
                 (take 3 ws) c)) = 3%nat.
Proof.
  intros c ws.
  pose proof (C4_detection_writes_in_order_until_failure test_tag_map
                driver_third_write_fails test_py_str
                (PyBool true) (PyFloat 1.5%float) (PyFloat 2.5%float)
                (PyFloat 0.75%float) (PyInt 1) (PyFloat 12.0%float) c) as H.
  cbv zeta in H. destruct H as (_ & _ & _ & H).
  split; [|vm_compute; reflexivity].
  apply (H 2%nat ("CentroidY", PyFloat 2.5%float)).
  - reflexivity.
  - intros j w' Hj Hw'.
    destruct j as [|[|j]]; [| |lia]; injection Hw' as <-; vm_compute; reflexivity.
  - vm_compute; reflexivity.
Defined.

(** C10 on a client that was never connected: the connection error of the
    first sub-write becomes the return value [False]. *)
Lemma C10_witness_not_connected :
  is_connected (_state (__init__ cfg_real)) = false
  /\ write_detection_result test_tag_map driver_ok test_py_str
       (PyBool true) (PyFloat 1.5%float) (PyFloat 2.5%float)
       (PyFloat 0.75%float) (PyInt 1) (PyFloat 12.0%float) (__init__ cfg_real)
     = (Return false, __init__ cfg_real).
Proof.
  split; [reflexivity|].
  pose proof (C10_write_detection_result_never_raises test_tag_map driver_ok
                test_py_str
                (PyBool true) (PyFloat 1.5%float) (PyFloat 2.5%float)
                (PyFloat 0.75%float) (PyInt 1) (PyFloat 12.0%float)
                (__init__ cfg_real)) as H.
  cbv zeta in H. destruct H as (_ & _ & _ & H & _).
  apply H. reflexivity.
Defined.

(** C2 on a device that fails every read: with five errors counted the
    client is still CONNECTED and the sixth makes it DEGRADED; a further
    read leaves it DEGRADED. *)
Lemma C2_witness_sixth_error :
  let c5 := exec_all test_tag_map driver_faulty test_now test_py_str
              (take 6 six_failed_reads) (__init__ cfg_real) in
  let c6 := exec_all test_tag_map driver_faulty test_now test_py_str
              six_failed_reads (__init__ cfg_real) in
  (status (_state c5) = CONNECTED /\ error_count (_state c5) = 5%Z)
  /\ status (_state (_handle_error "read failed" (Some "ROBOT_ACK") c5)) = DEGRADED
  /\ status (_state c6) = DEGRADED
  /\ status (_state (exec test_tag_map driver_faulty test_now test_py_str c6
                       (OpReadTag "RobotAck"))) = DEGRADED.
Proof.
  intros c5 c6.
  destruct (C2_degraded_until_disconnect_counter_kept test_tag_map driver_faulty
              test_now test_py_str c5) as (Hcount & _).
  destruct (C2_degraded_until_disconnect_counter_kept test_tag_map driver_faulty
              test_now test_py_str c6) as (_ & Hstay & _).
  assert (H5 : status (_state c5) = CONNECTED) by (vm_compute; reflexivity).
  assert (E5 : error_count (_state c5) = 5%Z) by (vm_compute; reflexivity).
  assert (H6 : status (_state c6) = DEGRADED) by (vm_compute; reflexivity).
  split; [split; assumption|].
  split; [apply Hcount; [exact H5|rewrite E5; reflexivity]|].
  split; [exact H6|].
  apply Hstay; [exact H6|discriminate].
Defined.

(** C2 as stated fails: after six failed reads, [disconnect] followed by a
    [connect] that opens a real session leaves the error counter at 6. *)
Lemma C2_counterexample_counter_not_reset :
  let c := exec_all test_tag_map driver_faulty test_now test_py_str
             (six_failed_reads ++ [OpDisconnect; OpConnect cfg_real])
             (__init__ cfg_real) in
  status (_state c) = CONNECTED
  /\ error_count (_state c) = 6%Z
  /\ error_count (_state c) <> 0%Z.
Proof.
  intros c.
  assert (E : error_count (_state c) = 6%Z) by (vm_compute; reflexivity).
  split; [vm_compute; reflexivity|]. split; [exact E|]. rewrite E. discriminate.
Qed.

(** C3: the device is down at the first [connect], which falls back to
    simulation; after [disconnect] a second [connect] opens a real session.
    The client is then CONNECTED, has no simulated device, and still reports
    [is_simulated]. *)
Theorem C3_connected_yet_flagged_simulated :
  let c := exec_all test_tag_map driver_comes_up test_now test_py_str
             [OpConnect cfg_real; OpDisconnect; OpConnect cfg_real]
             (__init__ cfg_real) in
  reachable test_tag_map driver_comes_up test_now test_py_str c
  /\ status (_state c) = CONNECTED
  /\ _simulated_plc c = None
  /\ _plc c = Some {| session_ip := "10.0.0.5" |}
  /\ is_simulated (_state c) = true.
Proof.
  intros c. split; [exists cfg_real; eexists; reflexivity|].
  repeat split; vm_compute; reflexivity.
Qed.

(** C7 as stated fails: on a connected client two reads issued together
    are both handed to the pool and both run at once; the second is not
    queued behind the first, and neither has ended. *)
Lemma C7_counterexample_two_in_flight :
  let c := (connect driver_ok test_now cfg_real (__init__ cfg_real)).2 in
  let w := run_world test_tag_map driver_ok test_py_str
             [StartCall (CallRead "RobotAck"); StartCall (CallRead "RobotAck")]
             (idle_world c) in
  status (_state c) = CONNECTED
  /\ ThreadPool.running (executor w)
     = [ThreadPool.JRead "RobotAck" "ROBOT_ACK";
        ThreadPool.JRead "RobotAck" "ROBOT_ACK"]
  /\ ThreadPool.queue (executor w) = []
  /\ client w = c
  /\ ~ (ThreadPool.in_flight (executor w) <= 1)%nat.
Proof.
  intros c w.
  split; [vm_compute; reflexivity|].
  split; [vm_compute; reflexivity|].
  split; [vm_compute; reflexivity|].
  split; [vm_compute; reflexivity|].
  assert (E : ThreadPool.in_flight (executor w) = 2%nat) by (vm_compute; reflexivity).
  rewrite E. lia.
Qed.

(** C7 on a connected client with a read, a write and a read issued
    together: the read and the write run, the second read waits and starts
    when the first has ended. *)
Lemma C7_witness_third_waits :
  let c := (connect driver_ok test_now cfg_real (__init__ cfg_real)).2 in
  let run := run_world test_tag_map driver_ok test_py_str in
  let read := CallRead "RobotAck" in
  let write := CallWrite "VisionReady" (PyBool true) in
  let jread := ThreadPool.JRead "RobotAck" "ROBOT_ACK" in
  let jwrite := ThreadPool.JWrite "VisionReady" "VisionCtrl_VisionReady" (PyBool true) in
  on_real_session c
  /\ accepted_call test_tag_map read jread
  /\ accepted_call test_tag_map write jwrite
  /\ ThreadPool.running (executor (run [StartCall read; StartCall write] (idle_world c)))
     = [jread; jwrite]
  /\ run [StartCall read; StartCall write; StartCall read] (idle_world c)
     = {| client := c;
          executor := {| ThreadPool.max_workers := 2;
                         ThreadPool.running := [jread; jwrite];
                         ThreadPool.queue := [jread] |} |}
  /\ run [StartCall read; StartCall write; StartCall read; CompleteJob 0] (idle_world c)
     = {| client := (read_tag test_tag_map driver_ok "RobotAck" c).2;
          executor := {| ThreadPool.max_workers := 2;
                         ThreadPool.running := [jwrite; jread];
                         ThreadPool.queue := [] |} |}
  /\ (forall steps,
        (ThreadPool.in_flight (executor (run steps (idle_world c))) <= 2)%nat).
Proof.
  intros c run read write jread jwrite.
  assert (Hs : on_real_session c)
    by (split; [|split];
        [vm_compute; reflexivity|vm_compute; reflexivity|eexists; reflexivity]).
  assert (Hr : accepted_call test_tag_map read jread)
    by (exists "ROBOT_ACK"; repeat split; vm_compute; reflexivity).
  assert (Hw : accepted_call test_tag_map write jwrite)
    by (exists "VisionCtrl_VisionReady"; repeat split; vm_compute; reflexivity).
  split; [exact Hs|]. split; [exact Hr|]. split; [exact Hw|].
  destruct (C7_at_most_two_in_flight test_tag_map driver_ok test_py_str c
              read write read jread jwrite jread Hs Hr Hw Hr)
    as (_ & Hbound & E2 & E3 & E4 & _ & _ & _).
  split; [unfold run; rewrite E2; reflexivity|].
  split; [exact E3|]. split; [exact E4|].
  intros steps. exact (proj1 (Hbound steps)).
Defined.

(** ** More on the simulated device *)

(** X17: A write to one register leaves every other register as it was. *)
Theorem write_variable_other_registers
    (plc : SimulatedPLC.t) (name other : string) (v : PyValue) :
  name <> other ->
  SimulatedPLC.read_variable (SimulatedPLC.write_variable plc name v) other
  = SimulatedPLC.read_variable plc other.
Proof.
  intros Hne. unfold SimulatedPLC.read_variable.
  rewrite write_variable_tags, lookup_insert_ne by exact Hne. reflexivity.
Qed.

(** X18: The acknowledgement cycle of the simulated robot: a truthy write to
    ["PRODUCT_DETECTED"] on a device with no timer pending starts one timer
    with the acknowledge delay and does not touch ["ROBOT_ACK"] yet; when it
    fires, ["ROBOT_ACK"] reads [True] and a one-second reset timer is
    pending; when that fires, ["ROBOT_ACK"] reads [False], no timer is left,
    and ["PRODUCT_DETECTED"] still holds the written value. *)
Theorem simulated_ack_cycle (plc : SimulatedPLC.t) (v : PyValue) :
  SimulatedPLC.timers plc = [] -> truthy v = true ->
  let p1 := SimulatedPLC.write_variable plc "PRODUCT_DETECTED" v in
  let p2 := SimulatedPLC.fire 0 p1 in
  let p3 := SimulatedPLC.fire 0 p2 in
  SimulatedPLC.timers p1 = [(SimulatedPLC._ack_delay plc, SimulatedPLC.AutoAck)]
  /\ SimulatedPLC.read_variable p1 "ROBOT_ACK"
     = SimulatedPLC.read_variable plc "ROBOT_ACK"
  /\ SimulatedPLC.read_variable p2 "ROBOT_ACK" = PyBool true
  /\ SimulatedPLC.timers p2 = [(1.0%float, SimulatedPLC.ResetAck)]
  /\ SimulatedPLC.read_variable p3 "ROBOT_ACK" = PyBool false
  /\ SimulatedPLC.timers p3 = []
  /\ SimulatedPLC.read_variable p3 "PRODUCT_DETECTED" = v.
Proof.
  intros Ht Hv p1 p2 p3. subst p3 p2 p1.
  unfold SimulatedPLC.write_variable. simpl. rewrite Hv, Ht. simpl.
  unfold SimulatedPLC.fire, SimulatedPLC.read_variable. simpl.
  repeat split.
  - rewrite lookup_insert_ne by discriminate. reflexivity.
  - rewrite lookup_insert_eq. reflexivity.
  - rewrite lookup_insert_eq. reflexivity.
  - rewrite !lookup_insert_ne by discriminate. rewrite lookup_insert_eq. reflexivity.
Qed.

(** X19: Timers are started by truthy writes to ["PRODUCT_DETECTED"] only, and
    a firing timer changes no register but ["ROBOT_ACK"]; firing a timer that
    does not exist changes nothing. *)
Theorem simulated_timers_are_confined
    (plc : SimulatedPLC.t) (name : string) (v : PyValue) (i : nat) :
  (SimulatedPLC.timers (SimulatedPLC.write_variable plc name v)
   = SimulatedPLC.timers plc
     ++ (if bool_decide (name = "PRODUCT_DETECTED") && truthy v
         then [(SimulatedPLC._ack_delay plc, SimulatedPLC.AutoAck)] else []))
  /\ (name <> "ROBOT_ACK" ->
      SimulatedPLC.read_variable (SimulatedPLC.fire i plc) name
      = SimulatedPLC.read_variable plc name)
  /\ (length (SimulatedPLC.timers plc) <= i -> SimulatedPLC.fire i plc = plc)%nat.
Proof.
  split; [|split].
  - unfold SimulatedPLC.write_variable.
    destruct (String.eqb_spec name "PRODUCT_DETECTED") as [->|Hne]; simpl.
    + destruct (truthy v); simpl; rewrite ?app_nil_r; reflexivity.
    + rewrite bool_decide_eq_false_2 by exact Hne. simpl.
      rewrite app_nil_r. reflexivity.
  - intros Hne. unfold SimulatedPLC.fire, SimulatedPLC.read_variable.
    destruct (SimulatedPLC.timers plc !! i) as [[d a]|]; [|reflexivity].
    destruct a; simpl; rewrite lookup_insert_ne by congruence; reflexivity.
  - intros Hle. unfold SimulatedPLC.fire.
    rewrite lookup_ge_None_2 by exact Hle. reflexivity.
Qed.

(** ** The configuration page *)

(** X21: The source type survives a load and save of the page when it is one of
    the four known types; any other stored type is shown as the first entry
    and saved back as ["video"].  An index from 0 to 3 is saved as the type
    that loads to it, an empty selection (index -1) is saved as the last
    type, and an index outside [-4, 3] raises. *)
Theorem source_type_load_save (s : string) (i : Z) :
  (s ∈ ConfigurationPage.source_types ->
   ConfigurationPage.save_source_type (ConfigurationPage.source_map_get s) = Some s)
  /\ (s ∉ ConfigurationPage.source_types ->
      ConfigurationPage.save_source_type (ConfigurationPage.source_map_get s)
      = Some "video")
  /\ ((0 <= i <= 3)%Z ->
      exists t, ConfigurationPage.save_source_type i = Some t
                /\ ConfigurationPage.source_map_get t = i)
  /\ ConfigurationPage.save_source_type (-1) = Some "gige"
  /\ ((i < -4 \/ 4 <= i)%Z -> ConfigurationPage.save_source_type i = None).
Proof.
  split; [|split; [|split; [|split]]].
  - unfold ConfigurationPage.source_types. intros H.
    repeat (apply elem_of_cons in H as [->|H]; [reflexivity|]).
    apply elem_of_nil in H. destruct H.
  - unfold ConfigurationPage.source_types, ConfigurationPage.source_map_get.
    intros H.
    destruct (String.eqb_spec s "video") as [->|_]; [reflexivity|].
    destruct (String.eqb_spec s "usb") as [->|_];
      [exfalso; apply H; rewrite !elem_of_cons; auto 10|].
    destruct (String.eqb_spec s "rtsp") as [->|_];
      [exfalso; apply H; rewrite !elem_of_cons; auto 10|].
    destruct (String.eqb_spec s "gige") as [->|_];
      [exfalso; apply H; rewrite !elem_of_cons; auto 10|].
    reflexivity.
  - intros Hi.
    assert (i = 0 \/ i = 1 \/ i = 2 \/ i = 3)%Z as [-> | [-> | [-> | ->]]] by lia;
      eexists; split; reflexivity.
  - reflexivity.
  - intros Hi. unfold ConfigurationPage.save_source_type, py_index.
    change (Z.of_nat (length ConfigurationPage.source_types)) with 4%Z.
    destruct (0 <=? i)%Z eqn:E0.
    + apply lookup_ge_None_2. simpl. lia.
    + destruct (Z.leb_spec (Z.opp 4) i); [lia|reflexivity].
Qed.

Lemma slider_positions_cover (v : Z) :
  (-100 <= v <= 100)%Z -> v ∈ ConfigurationPage.slider_positions.
Proof.
  intros Hv. unfold ConfigurationPage.slider_positions.
  apply list_elem_of_fmap. exists (Z.to_nat (v + 100)). split; [lia|].
  apply list_elem_of_In, in_seq. lia.
Qed.

(** X22: A slider position between -100 and 100 that is saved as
    [value / 100] and loaded back as [int(setting * 100)] comes back
    unchanged, except at 29, 57 and 58 (and their negatives), which come back
    one step nearer to zero: the float product falls just short of the
    integer and [int] truncates. *)
Theorem slider_reload_loses_a_step_at_six_positions (v : Z) :
  (-100 <= v <= 100)%Z ->
  exists r,
    ConfigurationPage.reload_slider v = Some r
    /\ ((v = 29 \/ v = 57 \/ v = 58)%Z -> r = (v - 1)%Z)
    /\ ((v = -29 \/ v = -57 \/ v = -58)%Z -> r = (v + 1)%Z)
    /\ (~ (v = 29 \/ v = 57 \/ v = 58 \/ v = -29 \/ v = -57 \/ v = -58)%Z -> r = v).
Proof.
  intros Hv.
  assert (Hall : forallb ConfigurationPage.reloads_as_expected
                   ConfigurationPage.slider_positions = true)
    by (vm_compute; reflexivity).
  rewrite forallb_forall in Hall.
  specialize (Hall v (proj1 (list_elem_of_In _ _) (slider_positions_cover v Hv))).
  unfold ConfigurationPage.reloads_as_expected in Hall.
  destruct (ConfigurationPage.reload_slider v) as [r|]; [|discriminate].
  exists r. split; [reflexivity|]. simpl in Hall.
  destruct (Z.eqb_spec v 29), (Z.eqb_spec v 57), (Z.eqb_spec v 58),
    (Z.eqb_spec v (-29)), (Z.eqb_spec v (-57)), (Z.eqb_spec v (-58));
    simpl in Hall; apply Z.eqb_eq in Hall; repeat split; intros; lia.
Qed.

(** ** The installer *)

(** X23: [check_python] accepts only versions from 3.10 on, but not all of
    them: the versions from 3.10 on that it turns away are exactly those with
    major version 4 or more and minor version below 10, such as 4.0. *)
Theorem check_python_turns_away_4_0 (major minor : Z) :
  (Installer.check_python major minor = true ->
   Installer.version_at_least major minor 3 10 = true)
  /\ (Installer.version_at_least major minor 3 10 = true
      /\ Installer.check_python major minor = false
      <-> (4 <= major /\ minor < 10)%Z).
Proof.
  unfold Installer.check_python, Installer.version_at_least.
  rewrite !Z.geb_leb.
  destruct (Z.leb_spec 3 major), (Z.leb_spec 10 minor), (Z.ltb_spec 3 major),
    (Z.eqb_spec major 3); simpl; repeat split; intros;
    repeat match goal with H : _ /\ _ |- _ => destruct H end;
    try discriminate; try reflexivity; try lia.
Qed.

Ltac in_commands :=
  repeat match goal with
  | H : _ ∈ _ :: _ |- _ => apply elem_of_cons in H as [H|H]; try congruence
  | H : _ ∈ [] |- _ => apply elem_of_nil in H; destruct H
  end.

Ltac close_stage :=
  repeat split; intros; try discriminate; eauto;
  try (rewrite ?elem_of_cons; auto 10; fail);
  in_commands.

(** X24: [install_dependencies] installs in stages and stops at the first stage
    that fails: it returns [True] exactly when the basic packages, PyTorch
    and the ML libraries all installed; the CPU build of PyTorch is tried
    exactly when the basic packages installed and the CUDA build failed or
    timed out; and the ML libraries (the PLC driver among them) are tried
    exactly when the basic packages and one of the two PyTorch builds
    installed. *)
Theorem install_dependencies_stages
    (run : Installer.Runner) (venv_python requirements_file : string) :
  let b := Installer.basic_command venv_python in
  let cuda := Installer.torch_cuda_command venv_python in
  let cpu := Installer.torch_cpu_command venv_python in
  let ml := Installer.ml_command venv_python in
  let o_basic := run [] b in
  let o_cuda := run [b] cuda in
  let o_cpu := run [b; cuda] cpu in
  let torch_ok :=
    Installer.succeeded o_cuda
    || Installer.failed_or_timed_out o_cuda && Installer.succeeded o_cpu in
  let o_ml :=
    run (if Installer.succeeded o_cuda then [b; cuda] else [b; cuda; cpu]) ml in
  let r := Installer.install_dependencies run venv_python requirements_file in
  (r.2 = Installer.Returns true
   <-> Installer.succeeded o_basic && torch_ok && Installer.succeeded o_ml = true)
  /\ (cpu ∈ r.1
      <-> Installer.succeeded o_basic && Installer.failed_or_timed_out o_cuda = true)
  /\ (ml ∈ r.1 <-> Installer.succeeded o_basic && torch_ok = true)
  /\ (exists rest, r.1 = b :: rest).
Proof.
  intros b cuda cpu ml o_basic o_cuda o_cpu torch_ok o_ml r.
  subst r torch_ok o_ml o_cpu o_cuda o_basic.
  unfold Installer.install_dependencies.
  fold b cuda cpu ml.
  assert (Hcb : cpu <> b) by (subst cpu b; discriminate).
  assert (Hcc : cpu <> cuda) by (subst cpu cuda; discriminate).
  assert (Hcm : cpu <> ml) by (subst cpu ml; discriminate).
  assert (Hmb : ml <> b) by (subst ml b; discriminate).
  assert (Hmc : ml <> cuda) by (subst ml cuda; discriminate).
  clearbody b cuda cpu ml.
  destruct (run [] b) as [[|?|?]| |?]; simpl; try (close_stage; fail).
  destruct (run [b] cuda) as [[|?|?]| |?]; simpl.
  - destruct (run [b; cuda] ml) as [[|?|?]| |?]; simpl; close_stage.
  - destruct (run [b; cuda] cpu) as [[|?|?]| |?]; simpl;
      try (close_stage; fail).
    destruct (run [b; cuda; cpu] ml) as [[|?|?]| |?]; simpl; close_stage.
  - destruct (run [b; cuda] cpu) as [[|?|?]| |?]; simpl;
      try (close_stage; fail).
    destruct (run [b; cuda; cpu] ml) as [[|?|?]| |?]; simpl; close_stage.
  - destruct (run [b; cuda] cpu) as [[|?|?]| |?]; simpl;
      try (close_stage; fail).
    destruct (run [b; cuda; cpu] ml) as [[|?|?]| |?]; simpl; close_stage.
  - close_stage.
Qed.

Lemma verify_packages_spec run py pkgs : forall h ok,
  (Installer.verify_packages run py pkgs h ok).1
  = h ++ map (Installer.show_command py) pkgs
  /\ ((Installer.verify_packages run py pkgs h ok).2 = true
      <-> ok = true
          /\ forall i pkg, pkgs !! i = Some pkg ->
               run (h ++ map (Installer.show_command py) (take i pkgs))
                   (Installer.show_command py pkg) = Installer.Exited 0).
Proof.
  induction pkgs as [|p pkgs IH]; intros h ok; simpl.
  - rewrite app_nil_r. split; [reflexivity|]. split; [|tauto].
    intros ->. split; [reflexivity|]. intros i pkg H. destruct i; discriminate.
  - destruct (IH (h ++ [Installer.show_command py p])
                (match run h (Installer.show_command py p) with
                 | Installer.Exited 0 => ok
                 | _ => false
                 end)) as (Hh & Hok).
    split; [rewrite Hh, <- app_assoc; reflexivity|].
    rewrite Hok. split.
    + intros (E & Hall). split.
      * destruct (run h (Installer.show_command py p)) as [[|?|?]| |?];
          congruence.
      * intros [|i] pkg Hi; simpl in *.
        -- injection Hi as <-. rewrite app_nil_r.
           destruct (run h (Installer.show_command py p)) as [[|?|?]| |?];
             congruence.
        -- specialize (Hall i pkg Hi). rewrite <- app_assoc in Hall. exact Hall.
    + intros (-> & Hall). split.
      * specialize (Hall 0%nat p eq_refl). simpl in Hall.
        rewrite app_nil_r in Hall. rewrite Hall. reflexivity.
      * intros i pkg Hi. specialize (Hall (S i) pkg Hi). simpl in Hall.
        rewrite <- app_assoc. exact Hall.
Qed.

(** X25: [verify_installation] looks up all five packages, in order, whatever
    the earlier lookups gave; it returns [True] exactly when every lookup
    ended with return code 0; and whether models and videos were found has
    no part in the result. *)
Theorem verify_installation_checks_every_package
    (run : Installer.Runner) (venv_python : string) (models_found videos_found : bool) :
  let r := Installer.verify_installation run venv_python models_found videos_found in
  r.1 = map (Installer.show_command venv_python) Installer.packages
  /\ (r.2 = true
      <-> forall i pkg, Installer.packages !! i = Some pkg ->
            run (map (Installer.show_command venv_python) (take i Installer.packages))
                (Installer.show_command venv_python pkg) = Installer.Exited 0)
  /\ r = Installer.verify_installation run venv_python false false.
Proof.
  intros r. subst r. unfold Installer.verify_installation.
  destruct (verify_packages_spec run venv_python Installer.packages [] true)
    as (Hh & Hok).
  split; [exact Hh|]. split; [|reflexivity].
  rewrite Hok. simpl. tauto.
Qed.

(** ** The further properties at concrete clients *)



(** After six failed reads the counter and the metrics both stand at 6. *)
Lemma reachable_errors_accounted_witness :
  let c := exec_all test_tag_map driver_faulty test_now test_py_str
             six_failed_reads (__init__ cfg_real) in
  reachable test_tag_map driver_faulty test_now test_py_str c
  /\ errors_accounted c
  /\ errors_recorded (trace c) = 6%Z.
Proof.
  intros c.
  assert (Hr : reachable test_tag_map driver_faulty test_now test_py_str c)
    by (exists cfg_real, six_failed_reads; reflexivity).
  split; [exact Hr|]. split; [|vm_compute; reflexivity].
  exact (reachable_errors_accounted test_tag_map driver_faulty test_now
           test_py_str c Hr).
Defined.

(** Five reports leave a freshly connected client CONNECTED. *)
Lemma degraded_exactly_above_five_witness :
  let c := (connect driver_ok test_now cfg_real (__init__ cfg_real)).2 in
  let errs := replicate 5 ("read failed", Some "ROBOT_ACK") in
  status (_state c) = CONNECTED
  /\ error_count (_state (report_errors errs c)) = 5%Z
  /\ status (_state (report_errors errs c)) = CONNECTED.
Proof.
  intros c errs.
  assert (Hc : status (_state c) = CONNECTED) by (vm_compute; reflexivity).
  destruct (degraded_exactly_above_five errs c Hc) as (E & S).
  split; [exact Hc|]. split.
  - rewrite E. vm_compute. reflexivity.
  - rewrite S, E. vm_compute. reflexivity.
Defined.

(** A read that fails on a real session. *)
Lemma read_tag_on_real_session_witness :
  let c := (connect driver_faulty test_now cfg_real (__init__ cfg_real)).2 in
  on_real_session c
  /\ accepted_read test_tag_map "RobotAck" "ROBOT_ACK"
  /\ exists c',
       read_tag test_tag_map driver_faulty "RobotAck" c
       = (Raise (CIPTagError "Erro ao ler TAG RobotAck: read failed"), c')
       /\ error_count (_state c') = 1%Z.
Proof.
  intros c.
  assert (Hs : on_real_session c)
    by (split; [|split];
        [vm_compute; reflexivity|vm_compute; reflexivity|eexists; reflexivity]).
  assert (Ha : accepted_read test_tag_map "RobotAck" "ROBOT_ACK")
    by (repeat split; vm_compute; reflexivity).
  split; [exact Hs|]. split; [exact Ha|].
  pose proof (read_tag_on_real_session test_tag_map driver_faulty c
                "RobotAck" "ROBOT_ACK" Hs Ha) as H.
  hnf in H. destruct H as (c' & Hr & He & _).
  exists c'. split; [exact Hr|]. rewrite He. vm_compute. reflexivity.
Defined.

(** A write that succeeds on a real session. *)
Lemma write_tag_on_real_session_witness :
  let c := (connect driver_ok test_now cfg_real (__init__ cfg_real)).2 in
  on_real_session c
  /\ accepted_write test_tag_map "VisionReady" (PyBool true) "VisionCtrl_VisionReady"
  /\ exists c',
       write_tag test_tag_map driver_ok test_py_str "VisionReady" (PyBool true) c
       = (Return true, c')
       /\ _state c' = _state c.
Proof.
  intros c.
  assert (Hs : on_real_session c)
    by (split; [|split];
        [vm_compute; reflexivity|vm_compute; reflexivity|eexists; reflexivity]).
  assert (Ha : accepted_write test_tag_map "VisionReady" (PyBool true)
                 "VisionCtrl_VisionReady")
    by (repeat split; vm_compute; reflexivity).
  split; [exact Hs|]. split; [exact Ha|].
  pose proof (write_tag_on_real_session test_tag_map driver_ok test_py_str c
                "VisionReady" "VisionCtrl_VisionReady" (PyBool true) Hs Ha) as H.
  hnf in H. destruct H as (c' & Hr & He & _).
  exists c'. split; [exact Hr|exact He].
Defined.

(** A read on a client that fell back to simulation. *)
Lemma simulated_session_never_degrades_witness :
  let c := exec_all test_tag_map driver_unreachable test_now test_py_str
             [OpConnect cfg_real] (__init__ cfg_real) in
  status (_state c) = SIMULATED
  /\ _state (exec test_tag_map driver_unreachable test_now test_py_str c
               (OpReadTag "RobotAck")) = _state c.
Proof.
  intros c.
  assert (Hs : status (_state c) = SIMULATED) by (vm_compute; reflexivity).
  split; [exact Hs|].
  apply (simulated_session_never_degrades test_tag_map driver_unreachable
           test_now test_py_str c (OpReadTag "RobotAck")).
  - exists cfg_real, [OpConnect cfg_real]. reflexivity.
  - exact Hs.
  - reflexivity.
Defined.

(** The detection flag written and read back through the client. *)
Lemma simulated_write_tag_read_tag_roundtrip_witness :
  let c := (connect driver_unreachable test_now cfg_real (__init__ cfg_real)).2 in
  on_simulated_device c SimulatedPLC.init
  /\ exists c1 c2,
       write_tag loopback_tag_map driver_unreachable test_py_str
         "PRODUCT_DETECTED" (PyBool true) c = (Return true, c1)
       /\ read_tag loopback_tag_map driver_unreachable "PRODUCT_DETECTED" c1
          = (Return (PyBool true), c2).
Proof.
  intros c.
  assert (Hs : on_simulated_device c SimulatedPLC.init)
    by (split; vm_compute; reflexivity).
  split; [exact Hs|].
  destruct (simulated_write_tag_read_tag_roundtrip loopback_tag_map
              driver_unreachable test_py_str c SimulatedPLC.init
              "PRODUCT_DETECTED" "PRODUCT_DETECTED" (PyBool true) Hs)
    as (c1 & c2 & H1 & H2 & _).
  - repeat split.
  - repeat split.
  - exists c1, c2. split; assumption.
Defined.

(** The flag set by a fallback survives a disconnect and a real connect. *)
Lemma is_simulated_is_never_cleared_witness :
  let c := exec_all test_tag_map driver_comes_up test_now test_py_str
             [OpConnect cfg_real; OpDisconnect] (__init__ cfg_real) in
  is_simulated (_state c) = true
  /\ is_simulated (_state (exec test_tag_map driver_comes_up test_now test_py_str c
                             (OpConnect cfg_real))) = true.
Proof.
  intros c.
  assert (Hf : is_simulated (_state c) = true) by (vm_compute; reflexivity).
  split; [exact Hf|].
  exact (is_simulated_is_never_cleared test_tag_map driver_comes_up test_now
           test_py_str c (OpConnect cfg_real) Hf).
Defined.

(** The signals of the first connect of a fresh client. *)
Lemma connect_signals_in_order_witness :
  let c' := (connect driver_ok test_now cfg_real (__init__ cfg_real)).2 in
  is_connected (_state (__init__ cfg_real)) = false
  /\ exists s1 mid tail,
       trace c'
       = trace (__init__ cfg_real) ++ EvEmit (state_changed s1) :: mid
           ++ EvEmit (state_changed (_state c')) :: tail ++ [EvEmit connected]
       /\ status s1 = CONNECTING.
Proof.
  intros c'. split; [reflexivity|].
  destruct (connect_signals_in_order driver_ok test_now cfg_real
              (__init__ cfg_real) eq_refl) as (s1 & mid & tail & Ht & Hs & _).
  exists s1, mid, tail. split; assumption.
Defined.

(** Writing the detection flag leaves the robot-ready register alone. *)
Lemma write_variable_other_registers_witness :
  SimulatedPLC.read_variable
    (SimulatedPLC.write_variable SimulatedPLC.init "PRODUCT_DETECTED" (PyBool true))
    "ROBOT_READY"
  = SimulatedPLC.read_variable SimulatedPLC.init "ROBOT_READY".
Proof.
  apply write_variable_other_registers. discriminate.
Defined.

(** The acknowledgement cycle on a fresh simulated device. *)
Lemma simulated_ack_cycle_witness :
  let p1 := SimulatedPLC.write_variable SimulatedPLC.init "PRODUCT_DETECTED"
              (PyBool true) in
  SimulatedPLC.read_variable (SimulatedPLC.fire 0 p1) "ROBOT_ACK" = PyBool true
  /\ SimulatedPLC.read_variable (SimulatedPLC.fire 0 (SimulatedPLC.fire 0 p1))
       "ROBOT_ACK" = PyBool false.
Proof.
  intros p1.
  destruct (simulated_ack_cycle SimulatedPLC.init (PyBool true) eq_refl eq_refl)
    as (_ & _ & H2 & _ & H3 & _).
  split; assumption.
Defined.

(** Position 29 comes back as 28. *)
Lemma slider_reload_witness :
  ConfigurationPage.reload_slider 29 = Some 28%Z.
Proof.
  destruct (slider_reload_loses_a_step_at_six_positions 29 ltac:(lia))
    as (r & Hr & H29 & _).
  rewrite Hr, H29 by auto. reflexivity.
Defined.

(** The acknowledgement as read through a client in simulation. *)
Lemma simulated_robot_acknowledges_witness :
  let c := (connect driver_unreachable test_now cfg_real (__init__ cfg_real)).2 in
  let c1 := (write_tag test_tag_map driver_unreachable test_py_str
               "ProductDetected" (PyBool true) c).2 in
  on_simulated_device c SimulatedPLC.init
  /\ (read_robot_ack test_tag_map driver_unreachable (sim_timer 0 c1)).1
     = Return (PyBool true).
Proof.
  intros c c1.
  assert (Hs : on_simulated_device c SimulatedPLC.init)
    by (split; vm_compute; reflexivity).
  split; [exact Hs|].
  destruct (simulated_robot_acknowledges test_tag_map driver_unreachable
              test_py_str c SimulatedPLC.init (PyBool true) Hs eq_refl eq_refl)
    as (_ & H & _).
  - repeat split; vm_compute; reflexivity.
  - repeat split; vm_compute; reflexivity.
  - exact H.
Defined.
